(** * Render gateway and render worker: a shallow embedding

    The repository has two programs that talk over HTTP:

    - the gateway, a Cloudflare Worker ([src/container.ts], default export
      [fetch]), which forwards a render job to a container and records the
      rendered video in an R2 bucket;
    - the render worker, an Express server ([src/server.ts], [getS3Client]
      and the [POST /render] handler), which renders the video and either
      uploads it itself or sends the bytes back.

    Both are embedded as pure functions.  Every call that leaves the program
    ([request.json()], [container.fetch], [R2_BUCKET.put], [renderMedia],
    [s3Client.send], ...) is an entry of a call log, and its outcome (a value
    or a thrown error) is supplied by the environment.  [console.log] and
    [console.error] calls are left out: they return nothing and are not
    observable by the caller. *)

From Stdlib Require Import String Ascii List ZArith Bool Lia.
From Stdlib Require Import Decimal DecimalString.
Import ListNotations.
Open Scope string_scope.

(** ** JavaScript values that cross the wire *)

Set Warnings "-register-all".

(** A JSON value.  Numbers stay abstract: neither program computes with one,
    it only copies them, tests them for truthiness and prints them. *)
Inductive JSON (Number : Type) : Type :=
| JNull
| JBool (b : bool)
| JNum (n : Number)
| JStr (s : string)
| JArr (items : list (JSON Number))
| JObj (props : list (string * JSON Number)).

Arguments JNull {Number}.
Arguments JBool {Number} b.
Arguments JNum {Number} n.
Arguments JStr {Number} s.
Arguments JArr {Number} items.
Arguments JObj {Number} props.

(** What the JavaScript runtime supplies for numbers and for serialisation. *)
Class Runtime (Number : Type) : Type := {
  (** [!n] on a number: true for +0, -0 and NaN *)
  number_is_falsy : Number -> bool;
  (** [String(n)] *)
  number_to_string : Number -> string;
  (** a length such as [buffer.byteLength] as a number *)
  number_of_nat : nat -> Number;
  (** [JSON.stringify] on a JSON value *)
  JSON_stringify : JSON Number -> string
}.

(** [String(n)] for a natural number, used for array indices as keys. *)
Definition nat_to_string (n : nat) : string :=
  NilEmpty.string_of_uint (Nat.to_uint n).

(** Integers as numbers, for running the model on concrete inputs (exact for
    the safe-integer range, which is where sizes and counts live). *)
Definition Z_is_falsy (z : Z) : bool := Z.eqb z 0.
Definition Z_to_string (z : Z) : string := NilEmpty.string_of_int (Z.to_int z).

(** A thrown error, by the text a handler reads from it ([error.message] in
    the gateway, [err.stack] in the worker), or a value. *)
Definition Exc (A : Type) : Type := (string + A)%type.

(** A response body as a byte stream / a buffer. *)
Definition Stream : Type := list Byte.byte.

(** ** Calls to the outside, with a log *)

Module Eff.
Section Log.
Variable Call : Type.

(** A computation: the calls it made, in order, and how it ended. *)
Definition M (A : Type) : Type := (list Call * Exc A)%type.

Definition ret {A : Type} (a : A) : M A := ([], inr a).

Definition throw {A : Type} (msg : string) : M A := ([], inl msg).

Definition bind {A B : Type} (m : M A) (k : A -> M B) : M B :=
  match m with
  | (log, inl e) => (log, inl e : Exc B)
  | (log, inr a) => let (log', r) := k a in ((log ++ log')%list, r)
  end.

(** [await c] where the call [c] ends with [outcome]. *)
Definition await {A : Type} (c : Call) (outcome : Exc A) : M A :=
  ([c], outcome).

(** A synchronous step that may throw. *)
Definition lift {A : Type} (outcome : Exc A) : M A := ([], outcome).

(** [try { m } catch (error) { return handler error }] with a handler
    that makes no call of its own. *)
Definition try_catch {A : Type} (m : M A) (handler : string -> A)
  : list Call * A :=
  match m with
  | (log, inl e) => (log, handler e)
  | (log, inr a) => (log, a)
  end.
End Log.

Arguments ret {Call A} a.
Arguments throw {Call A} msg.
Arguments bind {Call A B} m k.
Arguments await {Call A} c outcome.
Arguments lift {Call A} outcome.
Arguments try_catch {Call A} m handler.
End Eff.

Notation "x <- m ;; k" := (Eff.bind m (fun x => k))
  (at level 61, m at next level, right associativity).

Section Program.
Context {Number : Type} {RT : Runtime Number}.

Local Abbreviation Json := (JSON Number).

(** *** Property access, truthiness and string conversion *)

Fixpoint lookup (k : string) (props : list (string * Json)) : option Json :=
  match props with
  | [] => None
  | (k', v) :: rest => if String.eqb k' k then Some v else lookup k rest
  end.

(** [{ ...o, k: v }] on the properties of [o]: an existing [k] keeps its
    place and takes the new value, a new [k] goes last. *)
Fixpoint set_prop (k : string) (v : Json) (props : list (string * Json))
  : list (string * Json) :=
  match props with
  | [] => [(k, v)]
  | (k', v') :: rest =>
      if String.eqb k' k then (k, v) :: rest
      else (k', v') :: set_prop k v rest
  end.

(** [v?.name] for a property name that no prototype defines (all the names
    the two programs read are of that kind: key, size, compositionId,
    inputProps, renderId, r2Config, accountId, accessKeyId,
    secretAccessKey, bucketName).  [None] is [undefined]. *)
Definition get_opt (v : option Json) (name : string) : option Json :=
  match v with
  | Some (JObj props) => lookup name props
  | _ => None
  end.

(** [v.name] on a defined value: reading a property of [null] throws. *)
Definition get_prop (v : Json) (name : string) : Exc (option Json) :=
  match v with
  | JNull =>
      inl ("Cannot read properties of null (reading '" ++ name ++ "')")
  | _ => inr (get_opt (Some v) name)
  end.

(** JavaScript truthiness. *)
Definition truthy (v : option Json) : bool :=
  match v with
  | None => false
  | Some JNull => false
  | Some (JBool b) => b
  | Some (JNum n) => negb (number_is_falsy n)
  | Some (JStr s) => negb (String.eqb s EmptyString)
  | Some (JArr _) => true
  | Some (JObj _) => true
  end.

(** [String(v)], as a template literal applies it.  An object is taken
    to have no property of its own named [toString]: the values the two
    programs put into a template (the gateway's identifier, the worker's
    key) are strings. *)
Fixpoint ToString (v : Json) : string :=
  match v with
  | JNull => "null"
  | JBool true => "true"
  | JBool false => "false"
  | JNum n => number_to_string n
  | JStr s => s
  | JArr items =>
      String.concat ","
        (map (fun item => match item with
                          | JNull => EmptyString
                          | _ => ToString item
                          end) items)
  | JObj _ => "[object Object]"
  end.

Definition template (v : option Json) : string :=
  match v with
  | None => "undefined"
  | Some j => ToString j
  end.

(** The own enumerable properties that [{ ...v }] copies: those of an
    object, the indexed elements of an array, the indexed characters of a
    string (one per character of the string as held here), none of
    another primitive. *)
Definition indexed (items : list Json) : list (string * Json) :=
  combine (map nat_to_string (seq 0 (length items))) items.

Definition spread (v : Json) : list (string * Json) :=
  match v with
  | JObj props => props
  | JArr items => indexed items
  | JStr s =>
      indexed (map (fun c => JStr (String c EmptyString))
                 (list_ascii_of_string s))
  | _ => []
  end.

(** An object literal as [JSON.stringify] shows it: a property whose
    value is [undefined] is dropped. *)
Fixpoint object_literal (props : list (string * option Json))
  : list (string * Json) :=
  match props with
  | [] => []
  | (k, Some v) :: rest => (k, v) :: object_literal rest
  | (_, None) :: rest => object_literal rest
  end.

(** [s.includes(sub)] *)
Definition includes (s sub : string) : bool :=
  match String.index 0 sub s with
  | Some _ => true
  | None => false
  end.

(** ** The gateway ([src/container.ts]) *)

Record URL : Type := {
  href : string;
  pathname : string
}.

(** The inbound request: [new URL(request.url)], the method, and the
    outcome of [await request.json()]. *)
Record Request : Type := {
  req_url : URL;
  req_method : string;
  req_json : Exc Json
}.

(** [new Request(request.url, { method, headers, body })]; the body is
    held as the JSON value that [JSON.stringify(enhancedBody)] denotes. *)
Record ContainerRequest : Type := {
  c_url : string;
  c_method : string;
  c_headers : list (string * string);
  c_body : Json
}.

(** The container's response as the gateway sees it: status,
    [headers.get], [body] ([None] is [null]) and the outcomes of
    [await response.json()] and [await response.text()]. *)
Record Response : Type := {
  res_status : Z;
  res_headers_get : string -> option string;
  res_body : option Stream;
  res_json : Exc Json;
  res_text : Exc string
}.

Record R2Object : Type := {
  r2_key : string;
  r2_size : Number
}.

(** Bindings and variables of the gateway.  A variable or secret that is
    not configured reads as [undefined] ([None]). *)
Record Env : Type := {
  (** [getContainer(env.REMOTION_CONTAINER, "renderer").fetch] *)
  REMOTION_CONTAINER : ContainerRequest -> Exc Response;
  (** [env.R2_BUCKET.put(key, body, { httpMetadata: { contentType } })] *)
  R2_BUCKET : string -> Stream -> string -> Exc R2Object;
  R2_BUCKET_NAME : option string;
  CLOUDFLARE_ACCOUNT_ID : option string;
  R2_ACCESS_KEY_ID : option string;
  R2_SECRET_ACCESS_KEY : option string
}.

Inductive GatewayCall : Type :=
| RequestJson
| ContainerFetch (r : ContainerRequest)
| ResponseJson
| ResponseText
| BucketPut (key : string) (value : Stream) (contentType : string).

(** What the gateway answers: [Response.json(data, init)] or
    [new Response(text, init)]. *)
Inductive Payload : Type :=
| JsonPayload (data : Json)
| TextPayload (text : string).

Record GatewayResponse : Type := {
  g_status : Z;
  g_content_type : string;
  g_payload : Payload
}.

Definition Response_json (data : list (string * option Json)) (status : Z)
  : GatewayResponse :=
  {| g_status := status;
     g_content_type := "application/json";
     g_payload := JsonPayload (JObj (object_literal data)) |}.

Definition null_body_status (s : Z) : bool :=
  Z.eqb s 101 || Z.eqb s 204 || Z.eqb s 205 || Z.eqb s 304.

(** [new Response(text, { status, headers: { "Content-Type": ct } })]:
    the constructor rejects a status outside 200..599, and a text that is
    not empty on a null-body status.  The empty text on a null-body status
    is accepted: it is what reading such a response gives, and the
    response built from it has that status and nothing in its body. *)
Definition new_Response (text : string) (status : Z) (ct : string)
  : Exc GatewayResponse :=
  if Z.ltb status 200 || Z.ltb 599 status then
    inl "Responses may only be constructed with status codes in the range 200 to 599, inclusive."
  else if null_body_status status && negb (String.eqb text EmptyString) then
    inl "Response with null body status (101, 204, 205, or 304) cannot have a body."
  else
    inr {| g_status := status;
           g_content_type := ct;
           g_payload := TextPayload text |}.

Definition opt_str (s : option string) : option Json := option_map JStr s.

(** [r2Config: { accountId: env.CLOUDFLARE_ACCOUNT_ID, ... }] *)
Definition r2Config (env : Env) : Json :=
  JObj (object_literal
          [("accountId", opt_str (CLOUDFLARE_ACCOUNT_ID env));
           ("accessKeyId", opt_str (R2_ACCESS_KEY_ID env));
           ("secretAccessKey", opt_str (R2_SECRET_ACCESS_KEY env));
           ("bucketName", opt_str (R2_BUCKET_NAME env))]).

(** [{ ...originalBody, renderId, r2Config: {...} }] *)
Definition enhancedBody (originalBody : Json) (renderId : string)
  (env : Env) : Json :=
  JObj (set_prop "r2Config" (r2Config env)
          (set_prop "renderId" (JStr renderId) (spread originalBody))).

Definition containerRequest (request : Request) (body : Json)
  : ContainerRequest :=
  {| c_url := href (req_url request);
     c_method := "POST";
     c_headers := [("Content-Type", "application/json")];
     c_body := body |}.

(** [response.headers.get("Content-Type")], or the empty string when
    that is [null] or empty. *)
Definition contentType (response : Response) : string :=
  match res_headers_get response "Content-Type" with
  | Some ct => ct
  | None => EmptyString
  end.

(** [contentType.includes("application/json")] *)
Definition declares_json (response : Response) : bool :=
  includes (contentType response) "application/json".

Definition public_base : string := "https://renders.tremendous.dev/".

(** The body of the [try] block of the [/render] branch. *)
Definition render_attempt (request : Request) (env : Env)
  (renderId : string) : Eff.M GatewayCall GatewayResponse :=
  originalBody <- Eff.await RequestJson (req_json request) ;;
  let creq :=
    containerRequest request (enhancedBody originalBody renderId env) in
  response <- Eff.await (ContainerFetch creq) (REMOTION_CONTAINER env creq) ;;
  if Z.eqb (res_status response) 200 then
    if declares_json response then
      result <- Eff.await ResponseJson (res_json response) ;;
      key <- Eff.lift (get_prop result "key") ;;
      size <- Eff.lift (get_prop result "size") ;;
      Eff.ret
        (Response_json
           [("renderId", Some (JStr renderId));
            ("bucketName", opt_str (R2_BUCKET_NAME env));
            ("key", key);
            ("size", size);
            ("url", Some (JStr (public_base ++ template key)))]
           200)
    else
      let key := renderId ++ ".mp4" in
      match res_body response with
      | None =>
          Eff.ret
            (Response_json
               [("error", Some (JStr "Empty response from container"))]
               500)
      | Some body =>
          r2Object <- Eff.await (BucketPut key body "video/mp4")
                        (R2_BUCKET env key body "video/mp4") ;;
          Eff.ret
            (Response_json
               [("renderId", Some (JStr renderId));
                ("bucketName", opt_str (R2_BUCKET_NAME env));
                ("key", Some (JStr key));
                ("size", Some (JNum (r2_size r2Object)));
                ("url", Some (JStr (public_base ++ key)))]
               200)
      end
  else
    errorText <- Eff.await ResponseText (res_text response) ;;
    Eff.lift (new_Response errorText (res_status response) "application/json").

(** The [catch] block of the [/render] branch. *)
Definition render_failed (renderId : string) (message : string)
  : GatewayResponse :=
  Response_json
    [("error", Some (JStr "Render failed"));
     ("message", Some (JStr message));
     ("renderId", Some (JStr renderId))]
    500.

Definition info_response : GatewayResponse :=
  {| g_status := 200;
     g_content_type := "text/plain";
     g_payload :=
       TextPayload "Remotion Worker - use POST /render to render videos" |}.

(** The default export's [fetch(request, env)].  [renderId] is the value
    [crypto.randomUUID()] returns for this request. *)
Definition fetch (request : Request) (env : Env) (renderId : string)
  : list GatewayCall * GatewayResponse :=
  if String.eqb (pathname (req_url request)) "/render" then
    Eff.try_catch (render_attempt request env renderId)
      (render_failed renderId)
  else ([], info_response).

(** The same request sent with another method. *)
Definition with_method (method : string) (request : Request) : Request :=
  {| req_url := req_url request;
     req_method := method;
     req_json := req_json request |}.

(** *** Reading a gateway run *)

(** The worker answered this render request with [response]: the path is
    [/render], the request body parsed, and the forward returned. *)
Definition worker_response (request : Request) (env : Env)
  (renderId : string) (response : Response) : Prop :=
  pathname (req_url request) = "/render" /\
  exists originalBody,
    req_json request = inr originalBody /\
    REMOTION_CONTAINER env
      (containerRequest request (enhancedBody originalBody renderId env))
    = inr response.

(** The storage writes of a run: key, body, content type. *)
Definition bucket_writes (log : list GatewayCall)
  : list (string * Stream * string) :=
  flat_map (fun c => match c with
                     | BucketPut key value ct => [(key, value, ct)]
                     | _ => []
                     end) log.

(** The jobs a run forwarded to the worker. *)
Definition forwards (log : list GatewayCall) : list ContainerRequest :=
  flat_map (fun c => match c with
                     | ContainerFetch r => [r]
                     | _ => []
                     end) log.


(** ** The render worker ([src/server.ts]) *)

(** What [req.body] is: [express.json()] (strict) has parsed the request
    body, which is an object or an array, before the handler runs.  A
    request the middleware itself turns down (not JSON, over the 10mb limit)
    never gets to the handler and is outside this model. *)

Record Credentials : Type := {
  cred_accessKeyId : Json;
  cred_secretAccessKey : Json
}.

(** [new S3Client({ region, endpoint, credentials })] *)
Record S3Client : Type := {
  s3_region : string;
  s3_endpoint : string;
  s3_credentials : Credentials
}.

(** [getS3Client(config)]: [None] is [null]. *)
Definition getS3Client (config : option Json) : option S3Client :=
  if negb (truthy (get_opt config "accountId"))
     || negb (truthy (get_opt config "accessKeyId"))
     || negb (truthy (get_opt config "secretAccessKey"))
  then None
  else
    match get_opt config "accountId",
          get_opt config "accessKeyId",
          get_opt config "secretAccessKey" with
    | Some accountId, Some accessKeyId, Some secretAccessKey =>
        Some {| s3_region := "auto";
                s3_endpoint :=
                  "https://" ++ ToString accountId
                             ++ ".r2.cloudflarestorage.com";
                s3_credentials :=
                  {| cred_accessKeyId := accessKeyId;
                     cred_secretAccessKey := secretAccessKey |} |}
    | _, _, _ => None
    end.

(** [new PutObjectCommand({ Bucket, Key, Body, ContentType })];
    [Bucket] is [undefined] when the config has no bucket name. *)
Record PutObjectCommand : Type := {
  Bucket : option Json;
  Key : string;
  Body : Stream;
  ContentType : string
}.

(** The outcomes of the calls the handler makes while serving one request.
    [Composition] is what [selectComposition] resolves to. *)
Record Renderer (Composition : Type) : Type := {
  selectComposition : option Json -> option Json -> Exc Composition;
  renderMedia : Composition -> option Json -> string -> Exc unit;
  readFile : string -> Exc Stream;
  s3_send : S3Client -> PutObjectCommand -> Exc unit
}.

Arguments selectComposition {Composition} _ _ _.
Arguments renderMedia {Composition} _ _ _ _.
Arguments readFile {Composition} _ _.
Arguments s3_send {Composition} _ _ _.

Inductive WorkerCall : Type :=
| SelectComposition (id inputProps : option Json)
| RenderMedia (inputProps : option Json) (outputLocation : string)
| ReadFile (outputLocation : string)
| S3Send (client : S3Client) (command : PutObjectCommand).

(** What the handler answers: [res.status(s).json(v)], or
    [res.status(s).send(buffer)] after the [setHeader] calls. *)
Inductive ExpressBody : Type :=
| SendJson (v : Json)
| SendBuffer (buffer : Stream).

Record ExpressResponse : Type := {
  e_status : Z;
  e_headers : list (string * string);
  e_body : ExpressBody
}.

Definition res_json_reply (status : Z) (data : list (string * option Json))
  : ExpressResponse :=
  {| e_status := status;
     e_headers := [];
     e_body := SendJson (JObj (object_literal data)) |}.

Definition composition_required : string := "`compositionId` is required.".

(** The [else] branch: send the buffer back. *)
Definition send_buffer (fileBuffer : Stream) (fileSize : Number)
  : ExpressResponse :=
  {| e_status := 200;
     e_headers := [("Content-Type", "video/mp4");
                   ("Content-Length", number_to_string fileSize)];
     e_body := SendBuffer fileBuffer |}.

(** The handler of [app.post("/render", ...)].  [outputLocation] is
    [path.join("/tmp", `out-${Date.now()}.mp4`)].  The [finally] block,
    which only removes the temporary file after the answer is settled, is
    left out. *)
Definition render_handler {Composition : Type} (sys : Renderer Composition)
  (outputLocation : string) (body : Json) : list WorkerCall * ExpressResponse :=
  let compositionId := get_opt (Some body) "compositionId" in
  let inputProps := get_opt (Some body) "inputProps" in
  let renderId := get_opt (Some body) "renderId" in
  let r2Config := get_opt (Some body) "r2Config" in
  Eff.try_catch
    (if negb (truthy compositionId) then
       Eff.ret
         (res_json_reply 400 [("message", Some (JStr composition_required))])
     else
       composition <- Eff.await (SelectComposition compositionId inputProps)
                        (selectComposition sys compositionId inputProps) ;;
       _ <- Eff.await (RenderMedia inputProps outputLocation)
              (renderMedia sys composition inputProps outputLocation) ;;
       fileBuffer <- Eff.await (ReadFile outputLocation)
                       (readFile sys outputLocation) ;;
       let fileSize := number_of_nat (length fileBuffer) in
       match getS3Client r2Config with
       | Some s3Client =>
           if truthy renderId && truthy r2Config then
             let key := template renderId ++ ".mp4" in
             let command :=
               {| Bucket := get_opt r2Config "bucketName";
                  Key := key;
                  Body := fileBuffer;
                  ContentType := "video/mp4" |} in
             _ <- Eff.await (S3Send s3Client command)
                    (s3_send sys s3Client command) ;;
             Eff.ret
               (res_json_reply 200
                  [("success", Some (JBool true));
                   ("renderId", renderId);
                   ("key", Some (JStr key));
                   ("size", Some (JNum fileSize));
                   ("uploadedToR2", Some (JBool true))])
           else Eff.ret (send_buffer fileBuffer fileSize)
       | None => Eff.ret (send_buffer fileBuffer fileSize)
       end)
    (fun stack =>
       res_json_reply 500
         [("message", Some (JStr "Error rendering video."));
          ("error", Some (JStr stack))]).

(** The uploads a worker run sent to storage. *)
Definition s3_sends (log : list WorkerCall)
  : list (S3Client * PutObjectCommand) :=
  flat_map (fun c => match c with
                     | S3Send client command => [(client, command)]
                     | _ => []
                     end) log.

(** The four fields the worker tests before it uploads by itself, each
    present as a truthy value: the three credential fields of [r2Config]
    and the [renderId]. *)
Definition upload_fields_present (body : Json) : bool :=
  truthy (get_opt (get_opt (Some body) "r2Config") "accountId")
  && truthy (get_opt (get_opt (Some body) "r2Config") "accessKeyId")
  && truthy (get_opt (get_opt (Some body) "r2Config") "secretAccessKey")
  && truthy (get_opt (Some body) "renderId").

(** ** The container between the two *)

(** [delivers reply response]: the gateway's [response] is the worker's
    [reply] as HTTP carries it: same status; a JSON reply reads back as its
    text and as its value; a buffer reply is the body stream, with the
    headers the handler set. *)
Definition delivers (reply : ExpressResponse) (response : Response) : Prop :=
  res_status response = e_status reply /\
  match e_body reply with
  | SendJson v =>
      res_text response = inr (JSON_stringify v) /\
      res_json response = inr v /\
      res_headers_get response "Content-Type"
        = Some "application/json; charset=utf-8"
  | SendBuffer buffer =>
      res_body response = Some buffer /\
      forall k v, In (k, v) (e_headers reply) ->
                  res_headers_get response k = Some v
  end.

End Program.

Arguments Request Number : clear implicits.
Arguments ContainerRequest Number : clear implicits.
Arguments Response Number : clear implicits.
Arguments R2Object Number : clear implicits.
Arguments Env Number : clear implicits.
Arguments GatewayCall Number : clear implicits.
Arguments Payload Number : clear implicits.
Arguments GatewayResponse Number : clear implicits.
Arguments Credentials Number : clear implicits.
Arguments S3Client Number : clear implicits.
Arguments PutObjectCommand Number : clear implicits.
Arguments Renderer Number Composition : clear implicits.
Arguments WorkerCall Number : clear implicits.
Arguments ExpressBody Number : clear implicits.
Arguments ExpressResponse Number : clear implicits.
Arguments selectComposition {Number Composition} _ _ _.
Arguments renderMedia {Number Composition} _ _ _ _.
Arguments readFile {Number Composition} _ _.
Arguments s3_send {Number Composition} _ _ _.

(** ** A concrete runtime, to run the two programs on examples *)

Module Concrete.

Definition quote : string := String (ascii_of_nat 34) EmptyString.
Definition backslash : string := String (ascii_of_nat 92) EmptyString.

Definition hex_digit (n : nat) : string :=
  String (ascii_of_nat (if Nat.ltb n 10 then 48 + n else 87 + n)) EmptyString.

(** One character of a string inside [JSON.stringify]'s quotes. *)
Definition escape_char (c : ascii) : string :=
  let n := nat_of_ascii c in
  if Nat.eqb n 34 then backslash ++ quote
  else if Nat.eqb n 92 then backslash ++ backslash
  else if Nat.eqb n 8 then backslash ++ "b"
  else if Nat.eqb n 9 then backslash ++ "t"
  else if Nat.eqb n 10 then backslash ++ "n"
  else if Nat.eqb n 12 then backslash ++ "f"
  else if Nat.eqb n 13 then backslash ++ "r"
  else if Nat.ltb n 32 then
    backslash ++ "u00" ++ hex_digit (n / 16) ++ hex_digit (n mod 16)
  else String c EmptyString.

Definition quoted (s : string) : string :=
  quote ++ String.concat EmptyString (map escape_char (list_ascii_of_string s))
        ++ quote.

Fixpoint stringify (v : JSON Z) : string :=
  match v with
  | JNull => "null"
  | JBool true => "true"
  | JBool false => "false"
  | JNum n => Z_to_string n
  | JStr s => quoted s
  | JArr items => "[" ++ String.concat "," (map stringify items) ++ "]"
  | JObj props =>
      "{" ++ String.concat ","
               (map (fun kv => quoted (fst kv) ++ ":" ++ stringify (snd kv))
                  props)
          ++ "}"
  end.

#[global] Instance Z_Runtime : Runtime Z := {|
  number_is_falsy := Z_is_falsy;
  number_to_string := Z_to_string;
  number_of_nat := Z.of_nat;
  JSON_stringify := stringify
|}.

Definition render_url : URL :=
  {| href := "http://localhost:8787/render"; pathname := "/render" |}.


Definition post (u : URL) (body : JSON Z) : Request Z :=
  {| req_url := u; req_method := "POST"; req_json := inr body |}.

(** A [GET] without a body: [request.json()] rejects. *)
Definition get (u : URL) : Request Z :=
  {| req_url := u; req_method := "GET";
     req_json := inl "Unexpected end of JSON input" |}.

Definition hello_world : JSON Z :=
  JObj [("compositionId", JStr "HelloWorld");
        ("inputProps", JObj [("titleText", JStr "Hi")])].

Definition header (name value : string) : string -> option string :=
  fun k => if String.eqb k name then Some value else None.

(** A worker double that answers with a manifest. *)
Definition manifest_response (manifest : JSON Z) : Response Z :=
  {| res_status := 200;
     res_headers_get := header "Content-Type" "application/json; charset=utf-8";
     res_body := None;
     res_json := inr manifest;
     res_text := inr (stringify manifest) |}.

(** A worker double that answers with raw bytes under a declared type. *)
Definition stream_response (contentType : string) (bytes : Stream)
  : Response Z :=
  {| res_status := 200;
     res_headers_get := header "Content-Type" contentType;
     res_body := Some bytes;
     res_json := inl "Unexpected token in JSON";
     res_text := inl "not text" |}.

(** A worker double that answers 200 without any body. *)
Definition bodiless_response : Response Z :=
  {| res_status := 200;
     res_headers_get := header "Content-Type" "video/mp4";
     res_body := None;
     res_json := inl "Unexpected end of JSON input";
     res_text := inr EmptyString |}.

(** A worker double that fails with a status and a text. *)
Definition fault_response (status : Z) (text : string) : Response Z :=
  {| res_status := status;
     res_headers_get := header "Content-Type" "application/json; charset=utf-8";
     res_body := None;
     res_json := inl "Unexpected token in JSON";
     res_text := inr text |}.

(** A bucket that stores what it is given and reports its length. *)
Definition honest_put (key : string) (body : Stream) (contentType : string)
  : Exc (R2Object Z) :=
  inr {| r2_key := key; r2_size := Z.of_nat (length body) |}.

Definition env_with (container : ContainerRequest Z -> Exc (Response Z))
  (accessKeyId secretAccessKey : option string) : Env Z :=
  {| REMOTION_CONTAINER := container;
     R2_BUCKET := honest_put;
     R2_BUCKET_NAME := Some "remotion-renders";
     CLOUDFLARE_ACCOUNT_ID := Some "acct";
     R2_ACCESS_KEY_ID := accessKeyId;
     R2_SECRET_ACCESS_KEY := secretAccessKey |}.

(** A gateway whose secrets are not set, in front of a given double. *)
Definition bare_env (response : Response Z) : Env Z :=
  env_with (fun _ => inr response) None None.

(** A gateway with nothing configured but its bindings. *)
Definition unconfigured_env (response : Response Z) : Env Z :=
  {| REMOTION_CONTAINER := fun _ => inr response;
     R2_BUCKET := honest_put;
     R2_BUCKET_NAME := None;
     CLOUDFLARE_ACCOUNT_ID := None;
     R2_ACCESS_KEY_ID := None;
     R2_SECRET_ACCESS_KEY := None |}.

(** A worker reply as the container hands it to the gateway. *)
Definition carry (reply : ExpressResponse Z) : Response Z :=
  match e_body reply with
  | SendJson v =>
      {| res_status := e_status reply;
         res_headers_get :=
           header "Content-Type" "application/json; charset=utf-8";
         res_body := Some (list_byte_of_string (stringify v));
         res_json := inr v;
         res_text := inr (stringify v) |}
  | SendBuffer buffer =>
      {| res_status := e_status reply;
         res_headers_get :=
           fun k => option_map snd
                      (find (fun kv => String.eqb (fst kv) k)
                         (e_headers reply));
         res_body := Some buffer;
         res_json := inl "Unexpected token in JSON";
         res_text := inl "not text" |}
  end.

(** A renderer for which every step succeeds and every video is four
    bytes long. *)
Definition studio : Renderer Z unit :=
  {| selectComposition := fun _ _ => inr tt;
     renderMedia := fun _ _ _ => inr tt;
     readFile := fun _ => inr [Byte.x00; Byte.x01; Byte.x02; Byte.x03];
     s3_send := fun _ _ => inr tt |}.

Definition tmp_out : string := "/tmp/out-1735000000000.mp4".

(** The render worker itself behind the container binding. *)
Definition worker_container (creq : ContainerRequest Z) : Exc (Response Z) :=
  inr (carry (snd (render_handler studio tmp_out (c_body creq)))).

Definition uuid : string := "550e8400-e29b-41d4-a716-446655440000".

(** A forwarded job whose credential has everything but a bucket name. *)
Definition job_without_bucket : JSON Z :=
  JObj [("compositionId", JStr "HelloWorld");
        ("renderId", JStr uuid);
        ("r2Config",
         JObj [("accountId", JStr "acct");
               ("accessKeyId", JStr "AKIDEXAMPLE");
               ("secretAccessKey", JStr "s3cr3t")])].

Definition four_bytes : Stream := [Byte.x00; Byte.x01; Byte.x02; Byte.x03].

End Concrete.

(** ** The map composition's helpers ([src/MapScene/constants.ts]) *)

(** Category id to colour and to label.  A JavaScript object keyed by
    numbers is keyed by their strings: [CATEGORY_COLORS[type]] looks up
    [String(type)]. *)
Definition CATEGORY_COLORS : list (string * string) :=
  [("1", "#EF4444"); ("2", "#F97316"); ("3", "#EAB308");
   ("4", "#22C55E"); ("5", "#3B82F6")].

Definition CATEGORY_LABELS : list (string * string) :=
  [("1", "Type 1"); ("2", "Type 2"); ("3", "Type 3");
   ("4", "Type 4"); ("5", "Type 5")].

(** [table[key]]: [None] is [undefined]. *)
Fixpoint table_get (key : string) (table : list (string * string))
  : option string :=
  match table with
  | [] => None
  | (k, v) :: rest => if String.eqb k key then Some v else table_get key rest
  end.

(** [a ?? b] where [b] is itself a table entry. *)
Definition nullish (a b : option string) : option string :=
  match a with
  | Some v => Some v
  | None => b
  end.

(** [getCategoryColor(type)]: [CATEGORY_COLORS[type] ?? CATEGORY_COLORS[1]] *)
Definition getCategoryColor {Number : Type} {RT : Runtime Number}
  (type : Number) : option string :=
  nullish (table_get (number_to_string type) CATEGORY_COLORS)
    (table_get "1" CATEGORY_COLORS).

(** [CATEGORY_LABELS[type] ?? `Type ${type}`], as the map scene computes
    its badge text. *)
Definition categoryLabel {Number : Type} {RT : Runtime Number}
  (type : Number) : string :=
  match table_get (number_to_string type) CATEGORY_LABELS with
  | Some label => label
  | None => "Type " ++ number_to_string type
  end.

Definition VIDEO_EXTENSIONS : list string :=
  [".mp4"; ".webm"; ".mov"; ".avi"; ".mkv"].

Definition IMAGE_EXTENSIONS : list string :=
  [".jpg"; ".jpeg"; ".png"; ".gif"; ".webp"; ".avif"].

Inductive MediaType : Type :=
| video
| image.

(** [c.toLowerCase()] on one character.  Strings are held as ASCII text; a
    character from A to Z becomes the one from a to z, any other stays. *)
Definition lower_ascii (c : ascii) : ascii :=
  let n := nat_of_ascii c in
  if Nat.leb 65 n && Nat.leb n 90 then ascii_of_nat (n + 32) else c.

Fixpoint toLowerCase (s : string) : string :=
  match s with
  | EmptyString => EmptyString
  | String c rest => String (lower_ascii c) (toLowerCase rest)
  end.

(** The characters the class [[^?#]] excludes. *)
Definition opens_query (c : ascii) : bool :=
  Ascii.eqb c "?" || Ascii.eqb c "#".

(** The longest prefix without [?] and [#]. *)
Fixpoint before_query (s : string) : string :=
  match s with
  | EmptyString => EmptyString
  | String c rest =>
      if opens_query c then EmptyString else String c (before_query rest)
  end.

(** [s.match(/^[^?#]+/)]: [None] when the prefix is empty, since [+] asks
    for one character at least. *)
Definition pathMatch (s : string) : option string :=
  match before_query s with
  | EmptyString => None
  | p => Some p
  end.

(** [s.endsWith(ext)] *)
Fixpoint endsWith (s ext : string) : bool :=
  String.eqb s ext
  || match s with
     | EmptyString => false
     | String _ rest => endsWith rest ext
     end.

(** [getMediaType(url)]: [None] is [null]. *)
Definition getMediaType (url : string) : option MediaType :=
  let urlLower := toLowerCase url in
  let path := match pathMatch urlLower with
              | Some p => p
              | None => urlLower
              end in
  if existsb (fun ext => endsWith path ext) VIDEO_EXTENSIONS then Some video
  else if existsb (fun ext => endsWith path ext) IMAGE_EXTENSIONS
       then Some image
       else None.

(** ** The duration of the map composition ([src/Root.tsx]) *)

(** The arithmetic of JavaScript numbers that the duration goes through;
    it is left to the runtime. *)
Class MathOps (F : Type) : Type := {
  of_int : Z -> F;
  times : F -> F -> F;
  Math_max : F -> F -> F;
  Math_min : F -> F -> F;
  Math_ceil : F -> F
}.

Section Duration.
Context {F : Type} {MO : MathOps F}.

Definition MIN_DURATION_SECONDS : F := of_int 30.
Definition MAX_DURATION_SECONDS : F := of_int 60.
Definition DEFAULT_DURATION_FRAMES : F := times MIN_DURATION_SECONDS (of_int 30).
Definition VIDEO_FPS : F := of_int 30.

Inductive MetadataCall : Type :=
| GetVideoMetadata (src : string).

(** [calculateMapSceneMetadata({ props })], as a function of
    [props.mediaUrl] and of how [getVideoMetadata] ends; the result is the
    [durationInFrames] it returns.  The [console.warn] of the catch block
    is left out. *)
Definition calculateMapSceneMetadata (mediaUrl : string)
  (getVideoMetadata : string -> Exc F) : list MetadataCall * F :=
  if negb (String.eqb mediaUrl EmptyString) then
    match getMediaType mediaUrl with
    | Some video =>
        Eff.try_catch
          (videoDurationSeconds <-
             Eff.await (GetVideoMetadata mediaUrl) (getVideoMetadata mediaUrl) ;;
           let targetDurationSeconds :=
             Math_max MIN_DURATION_SECONDS
               (Math_min videoDurationSeconds MAX_DURATION_SECONDS) in
           Eff.ret (Math_ceil (times targetDurationSeconds VIDEO_FPS)))
          (fun _ => DEFAULT_DURATION_FRAMES)
    | _ => ([], DEFAULT_DURATION_FRAMES)
    end
  else ([], DEFAULT_DURATION_FRAMES).

End Duration.

(** ** Reading an answer *)

(** A property of the JSON payload of an answer; a text payload has
    none. *)
Definition answer_prop {Number : Type} (answer : GatewayResponse Number)
  (name : string) : option (JSON Number) :=
  match g_payload answer with
  | JsonPayload data => get_opt (Some data) name
  | TextPayload _ => None
  end.

(** Whole seconds as numbers, to run the duration on examples. *)
#[global] Instance Z_MathOps : MathOps Z := {|
  of_int := fun z => z;
  times := Z.mul;
  Math_max := Z.max;
  Math_min := Z.min;
  Math_ceil := fun z => z
|}.

(** * Properties *)

Section GatewayPaths.
Context {Number : Type} {RT : Runtime Number}.
Implicit Types (request : Request Number) (env : Env Number)
  (response : Response Number) (renderId : string).

(** ** Object properties *)

Lemma lookup_set_prop_same (k : string) (v : JSON Number) props :
  lookup k (set_prop k v props) = Some v.
Proof.
  induction props as [| [k' v'] rest IH]; simpl.
  - now rewrite String.eqb_refl.
  - destruct (String.eqb k' k) eqn:E; simpl.
    + now rewrite String.eqb_refl.
    + now rewrite E.
Qed.

Lemma lookup_set_prop_other (k k' : string) (v : JSON Number) props :
  k <> k' -> lookup k (set_prop k' v props) = lookup k props.
Proof.
  intros Hne. induction props as [| [k0 v0] rest IH]; simpl.
  - destruct (String.eqb k' k) eqn:E; [| reflexivity].
    apply String.eqb_eq in E. congruence.
  - destruct (String.eqb k0 k') eqn:E; simpl.
    + apply String.eqb_eq in E. subst k0.
      destruct (String.eqb k' k) eqn:E'; [| reflexivity].
      apply String.eqb_eq in E'. congruence.
    + now rewrite IH.
Qed.

(** What the forwarded job holds under a name the gateway does not set. *)
Lemma enhancedBody_keeps (originalBody : JSON Number) renderId env name :
  name <> "renderId" -> name <> "r2Config" ->
  get_opt (Some (enhancedBody originalBody renderId env)) name
  = lookup name (spread originalBody).
Proof.
  intros H1 H2. unfold enhancedBody, get_opt.
  now rewrite !lookup_set_prop_other.
Qed.

Lemma enhancedBody_r2Config (originalBody : JSON Number) renderId env :
  get_opt (Some (enhancedBody originalBody renderId env)) "r2Config"
  = Some (r2Config env).
Proof. unfold enhancedBody, get_opt. apply lookup_set_prop_same. Qed.

Lemma enhancedBody_renderId (originalBody : JSON Number) renderId env :
  get_opt (Some (enhancedBody originalBody renderId env)) "renderId"
  = Some (JStr renderId).
Proof.
  unfold enhancedBody, get_opt.
  rewrite lookup_set_prop_other by discriminate.
  apply lookup_set_prop_same.
Qed.

(** ** One equation per path of [fetch] *)

Ltac enter_render Hpath :=
  unfold fetch, render_attempt; rewrite Hpath; cbn [String.eqb Ascii.eqb Bool.eqb].


Lemma fetch_unparsed request env renderId message :
  pathname (req_url request) = "/render" ->
  req_json request = inl message ->
  fetch request env renderId = ([RequestJson], render_failed renderId message).
Proof.
  intros Hpath Hjson. enter_render Hpath. now rewrite Hjson.
Qed.

Section Answered.
Variables (request : Request Number) (env : Env Number) (renderId : string).
Variables (originalBody : JSON Number) (response : Response Number).
Hypothesis Hpath : pathname (req_url request) = "/render".
Hypothesis Hjson : req_json request = inr originalBody.

Let job : ContainerRequest Number :=
  containerRequest request (enhancedBody originalBody renderId env).

Lemma fetch_unreachable message :
  REMOTION_CONTAINER env job = inl message ->
  fetch request env renderId
  = ([RequestJson; ContainerFetch job], render_failed renderId message).
Proof.
  intros Hfetch. enter_render Hpath. rewrite Hjson. cbn.
  fold job. now rewrite Hfetch.
Qed.

Hypothesis Hfetch : REMOTION_CONTAINER env job = inr response.

Lemma fetch_manifest :
  res_status response = 200%Z ->
  declares_json response = true ->
  fetch request env renderId
  = ([RequestJson; ContainerFetch job; ResponseJson],
     match res_json response with
     | inl message => render_failed renderId message
     | inr result =>
         match get_prop result "key", get_prop result "size" with
         | inr key, inr size =>
             Response_json
               [("renderId", Some (JStr renderId));
                ("bucketName", opt_str (R2_BUCKET_NAME env));
                ("key", key);
                ("size", size);
                ("url", Some (JStr (public_base ++ template key)))]
               200
         | inl message, _ => render_failed renderId message
         | _, inl message => render_failed renderId message
         end
     end).
Proof.
  intros Hstatus Hkind. enter_render Hpath. rewrite Hjson. cbn.
  fold job. rewrite Hfetch. cbn. rewrite Hstatus, Hkind. cbn.
  destruct (res_json response) as [message | result]; cbn; [reflexivity |].
  destruct (get_prop result "key") as [message | key]; cbn; [reflexivity |].
  destruct (get_prop result "size") as [message | size]; cbn; reflexivity.
Qed.

Lemma fetch_stream body :
  res_status response = 200%Z ->
  declares_json response = false ->
  res_body response = Some body ->
  fetch request env renderId
  = ([RequestJson; ContainerFetch job;
      BucketPut (renderId ++ ".mp4") body "video/mp4"],
     match R2_BUCKET env (renderId ++ ".mp4") body "video/mp4" with
     | inl message => render_failed renderId message
     | inr r2Object =>
         Response_json
           [("renderId", Some (JStr renderId));
            ("bucketName", opt_str (R2_BUCKET_NAME env));
            ("key", Some (JStr (renderId ++ ".mp4")));
            ("size", Some (JNum (r2_size r2Object)));
            ("url", Some (JStr (public_base ++ (renderId ++ ".mp4"))))]
           200
     end).
Proof.
  intros Hstatus Hkind Hbody. enter_render Hpath. rewrite Hjson. cbn.
  fold job. rewrite Hfetch. cbn. rewrite Hstatus, Hkind, Hbody. cbn.
  destruct (R2_BUCKET env (renderId ++ ".mp4") body "video/mp4");
    reflexivity.
Qed.

Lemma fetch_empty :
  res_status response = 200%Z ->
  declares_json response = false ->
  res_body response = None ->
  fetch request env renderId
  = ([RequestJson; ContainerFetch job],
     Response_json
       [("error", Some (JStr "Empty response from container"))] 500).
Proof.
  intros Hstatus Hkind Hbody. enter_render Hpath. rewrite Hjson. cbn.
  fold job. rewrite Hfetch. cbn. now rewrite Hstatus, Hkind, Hbody.
Qed.

Lemma fetch_fault :
  res_status response <> 200%Z ->
  fetch request env renderId
  = ([RequestJson; ContainerFetch job; ResponseText],
     match res_text response with
     | inl message => render_failed renderId message
     | inr errorText =>
         match new_Response errorText (res_status response)
                 "application/json" with
         | inl message => render_failed renderId message
         | inr answer => answer
         end
     end).
Proof.
  intros Hstatus. enter_render Hpath. rewrite Hjson. cbn.
  fold job. rewrite Hfetch. cbn.
  apply Z.eqb_neq in Hstatus. rewrite Hstatus. cbn.
  destruct (res_text response) as [message | errorText]; cbn;
    [reflexivity |].
  destruct (new_Response errorText (res_status response) "application/json");
    reflexivity.
Qed.

End Answered.

End GatewayPaths.

(** ** The streaming path *)

(** C1, as the code has it: on the streaming path (worker status 200, no
    JSON declared), when the response has a body and the bucket accepts
    the write, the gateway writes that body once, under
    [{renderId}.mp4], with the fixed content type [video/mp4] whatever
    type the worker declared, and answers 200 with the size the bucket
    reported for the stored object; no header of the response, a declared
    Content-Length included, enters the answer. *)
Theorem stream_stored_as_mp4 {Number : Type} {RT : Runtime Number}
  (request : Request Number) (env : Env Number) (renderId : string)
  (response : Response Number) (body : Stream) (r2Object : R2Object Number) :
  worker_response request env renderId response ->
  res_status response = 200%Z ->
  declares_json response = false ->
  res_body response = Some body ->
  R2_BUCKET env (renderId ++ ".mp4") body "video/mp4" = inr r2Object ->
  bucket_writes (fst (fetch request env renderId))
  = [(renderId ++ ".mp4", body, "video/mp4")]
  /\ snd (fetch request env renderId)
     = Response_json
         [("renderId", Some (JStr renderId));
          ("bucketName", opt_str (R2_BUCKET_NAME env));
          ("key", Some (JStr (renderId ++ ".mp4")));
          ("size", Some (JNum (r2_size r2Object)));
          ("url", Some (JStr (public_base ++ (renderId ++ ".mp4"))))]
         200.
Proof.
  intros (Hpath & originalBody & Hjson & Hfetch) Hstatus Hkind Hbody Hput.
  rewrite (fetch_stream request env renderId originalBody response
             Hpath Hjson Hfetch body Hstatus Hkind Hbody).
  cbn [fst snd]. rewrite Hput. split; reflexivity.
Qed.

Lemma stream_stored_as_mp4_witness :
  bucket_writes
    (fst (fetch (Concrete.post Concrete.render_url Concrete.hello_world)
            (Concrete.bare_env
               (Concrete.stream_response "video/mp4" Concrete.four_bytes))
            Concrete.uuid))
  = [(Concrete.uuid ++ ".mp4", Concrete.four_bytes, "video/mp4")]
  /\ g_status
       (snd (fetch (Concrete.post Concrete.render_url Concrete.hello_world)
               (Concrete.bare_env
                  (Concrete.stream_response "video/mp4" Concrete.four_bytes))
               Concrete.uuid))
     = 200%Z.
Proof.
  destruct (stream_stored_as_mp4
              (Concrete.post Concrete.render_url Concrete.hello_world)
              (Concrete.bare_env
                 (Concrete.stream_response "video/mp4" Concrete.four_bytes))
              Concrete.uuid
              (Concrete.stream_response "video/mp4" Concrete.four_bytes)
              Concrete.four_bytes
              {| r2_key := Concrete.uuid ++ ".mp4"; r2_size := 4%Z |})
    as [Hwrites Hanswer].
  - split; [reflexivity |].
    exists Concrete.hello_world. split; reflexivity.
  - reflexivity.
  - reflexivity.
  - reflexivity.
  - reflexivity.
  - split; [exact Hwrites |]. rewrite Hanswer. reflexivity.
Defined.

(** C1 as worded fails: a worker that declares [video/webm] has its bytes
    stored as [video/mp4]; the declared type is never written. *)
Lemma declared_type_not_preserved :
  worker_response (Concrete.post Concrete.render_url Concrete.hello_world)
    (Concrete.bare_env
       (Concrete.stream_response "video/webm" Concrete.four_bytes))
    Concrete.uuid
    (Concrete.stream_response "video/webm" Concrete.four_bytes)
  /\ res_status (Concrete.stream_response "video/webm" Concrete.four_bytes)
     = 200%Z
  /\ declares_json (Concrete.stream_response "video/webm" Concrete.four_bytes)
     = false
  /\ contentType (Concrete.stream_response "video/webm" Concrete.four_bytes)
     = "video/webm"
  /\ bucket_writes
       (fst (fetch (Concrete.post Concrete.render_url Concrete.hello_world)
               (Concrete.bare_env
                  (Concrete.stream_response "video/webm" Concrete.four_bytes))
               Concrete.uuid))
     = [(Concrete.uuid ++ ".mp4", Concrete.four_bytes, "video/mp4")]
  /\ ~ In (Concrete.uuid ++ ".mp4", Concrete.four_bytes, "video/webm")
         (bucket_writes
            (fst (fetch
                    (Concrete.post Concrete.render_url Concrete.hello_world)
                    (Concrete.bare_env
                       (Concrete.stream_response "video/webm"
                          Concrete.four_bytes))
                    Concrete.uuid))).
Proof.
  repeat split; try reflexivity.
  - exists Concrete.hello_world. split; reflexivity.
  - vm_compute. intros [H | []]. discriminate H.
Qed.

(** C8: on the streaming path, a response without a body is answered 500
    with the error [Empty response from container]: the bucket is never
    written, and the answer is not a render result (it has no key, size
    or url). *)
Theorem empty_artifact_is_500 {Number : Type} {RT : Runtime Number}
  (request : Request Number) (env : Env Number) (renderId : string)
  (response : Response Number) :
  worker_response request env renderId response ->
  res_status response = 200%Z ->
  declares_json response = false ->
  res_body response = None ->
  bucket_writes (fst (fetch request env renderId)) = []
  /\ snd (fetch request env renderId)
     = {| g_status := 500;
          g_content_type := "application/json";
          g_payload :=
            JsonPayload
              (JObj [("error", JStr "Empty response from container")]) |}.
Proof.
  intros (Hpath & originalBody & Hjson & Hfetch) Hstatus Hkind Hbody.
  rewrite (fetch_empty request env renderId originalBody response
             Hpath Hjson Hfetch Hstatus Hkind Hbody).
  split; reflexivity.
Qed.

Lemma empty_artifact_is_500_witness :
  g_status
    (snd (fetch (Concrete.post Concrete.render_url Concrete.hello_world)
            (Concrete.bare_env Concrete.bodiless_response) Concrete.uuid))
  = 500%Z.
Proof.
  destruct (empty_artifact_is_500
              (Concrete.post Concrete.render_url Concrete.hello_world)
              (Concrete.bare_env Concrete.bodiless_response) Concrete.uuid
              Concrete.bodiless_response)
    as [_ Hanswer].
  - split; [reflexivity |].
    exists Concrete.hello_world. split; reflexivity.
  - reflexivity.
  - reflexivity.
  - reflexivity.
  - rewrite Hanswer. reflexivity.
Defined.

(** ** The manifest path *)

(** C2: on the manifest path (worker status 200, JSON declared) the
    gateway makes exactly three calls: it reads the request, forwards the
    job, and reads the manifest.  It writes nothing to the bucket and
    hands the response body to no one.  When the manifest is a JSON value
    other than [null], the answer is the 200 render result built from the
    manifest's [key] and [size] alone. *)
Theorem manifest_passes_no_bytes {Number : Type} {RT : Runtime Number}
  (request : Request Number) (env : Env Number) (renderId : string)
  (response : Response Number) :
  worker_response request env renderId response ->
  res_status response = 200%Z ->
  declares_json response = true ->
  bucket_writes (fst (fetch request env renderId)) = []
  /\ (exists job,
        fst (fetch request env renderId)
        = [RequestJson; ContainerFetch job; ResponseJson])
  /\ (forall result,
        res_json response = inr result ->
        result <> JNull ->
        snd (fetch request env renderId)
        = Response_json
            [("renderId", Some (JStr renderId));
             ("bucketName", opt_str (R2_BUCKET_NAME env));
             ("key", get_opt (Some result) "key");
             ("size", get_opt (Some result) "size");
             ("url",
              Some (JStr (public_base
                            ++ template (get_opt (Some result) "key"))))]
            200).
Proof.
  intros (Hpath & originalBody & Hjson & Hfetch) Hstatus Hkind.
  rewrite (fetch_manifest request env renderId originalBody response
             Hpath Hjson Hfetch Hstatus Hkind).
  cbn [fst snd]. split; [reflexivity |]. split.
  - eexists. reflexivity.
  - intros result Hresult Hnull. rewrite Hresult.
    destruct result; try reflexivity. contradiction.
Qed.

Lemma manifest_passes_no_bytes_witness :
  bucket_writes
    (fst (fetch (Concrete.post Concrete.render_url Concrete.hello_world)
            (Concrete.bare_env
               (Concrete.manifest_response
                  (JObj [("key", JStr "abc.mp4"); ("size", JNum 2048%Z)])))
            Concrete.uuid))
  = []
  /\ g_payload
       (snd (fetch (Concrete.post Concrete.render_url Concrete.hello_world)
               (Concrete.bare_env
                  (Concrete.manifest_response
                     (JObj [("key", JStr "abc.mp4"); ("size", JNum 2048%Z)])))
               Concrete.uuid))
     = JsonPayload
         (JObj [("renderId", JStr Concrete.uuid);
                ("bucketName", JStr "remotion-renders");
                ("key", JStr "abc.mp4");
                ("size", JNum 2048%Z);
                ("url", JStr "https://renders.tremendous.dev/abc.mp4")]).
Proof.
  destruct (manifest_passes_no_bytes
              (Concrete.post Concrete.render_url Concrete.hello_world)
              (Concrete.bare_env
                 (Concrete.manifest_response
                    (JObj [("key", JStr "abc.mp4"); ("size", JNum 2048%Z)])))
              Concrete.uuid
              (Concrete.manifest_response
                 (JObj [("key", JStr "abc.mp4"); ("size", JNum 2048%Z)])))
    as (Hwrites & _ & Hanswer).
  - split; [reflexivity |].
    exists Concrete.hello_world. split; reflexivity.
  - reflexivity.
  - reflexivity.
  - split; [exact Hwrites |].
    rewrite (Hanswer (JObj [("key", JStr "abc.mp4"); ("size", JNum 2048%Z)]))
      by (reflexivity || discriminate).
    reflexivity.
Defined.

(** ** Worker faults *)

(** C7, as the code has it: a worker response with a status other than
    200 is relayed as it is.  When its text can be read and its status is
    one a response with a body may carry (200..599 except 204, 205, 304),
    the caller gets that same status, not a fixed 500, with the worker's
    text as the body, verbatim, under [application/json]; nothing is
    written to the bucket.  In particular a worker 500 reaches the caller
    as 500. *)
Theorem worker_fault_relayed {Number : Type} {RT : Runtime Number}
  (request : Request Number) (env : Env Number) (renderId : string)
  (response : Response Number) (errorText : string) :
  worker_response request env renderId response ->
  res_status response <> 200%Z ->
  (200 <= res_status response <= 599)%Z ->
  null_body_status (res_status response) = false ->
  res_text response = inr errorText ->
  bucket_writes (fst (fetch request env renderId)) = []
  /\ snd (fetch request env renderId)
     = {| g_status := res_status response;
          g_content_type := "application/json";
          g_payload := TextPayload errorText |}
  /\ (res_status response = 500%Z ->
      g_status (snd (fetch request env renderId)) = 500%Z).
Proof.
  intros (Hpath & originalBody & Hjson & Hfetch) Hstatus Hrange Hnull Htext.
  rewrite (fetch_fault request env renderId originalBody response
             Hpath Hjson Hfetch Hstatus).
  cbn [fst snd]. rewrite Htext. unfold new_Response. rewrite Hnull.
  cbn [andb].
  replace (Z.ltb (res_status response) 200 || Z.ltb 599 (res_status response))
    with false.
  - repeat split. intros H500. exact H500.
  - symmetry. apply orb_false_iff. split; apply Z.ltb_ge; lia.
Qed.

Lemma worker_fault_relayed_witness :
  snd (fetch (Concrete.post Concrete.render_url Concrete.hello_world)
         (Concrete.bare_env (Concrete.fault_response 500 "renderer crashed"))
         Concrete.uuid)
  = {| g_status := 500;
       g_content_type := "application/json";
       g_payload := TextPayload "renderer crashed" |}.
Proof.
  destruct (worker_fault_relayed
              (Concrete.post Concrete.render_url Concrete.hello_world)
              (Concrete.bare_env
                 (Concrete.fault_response 500 "renderer crashed"))
              Concrete.uuid
              (Concrete.fault_response 500 "renderer crashed")
              "renderer crashed")
    as (_ & Hanswer & _).
  - split; [reflexivity |].
    exists Concrete.hello_world. split; reflexivity.
  - discriminate.
  - cbn. lia.
  - reflexivity.
  - reflexivity.
  - exact Hanswer.
Defined.

(** C7 as worded fails: a worker that answers 503 is not turned into a
    500; the caller receives 503. *)
Lemma worker_status_not_forced_to_500 :
  worker_response (Concrete.post Concrete.render_url Concrete.hello_world)
    (Concrete.bare_env (Concrete.fault_response 503 "container is starting"))
    Concrete.uuid
    (Concrete.fault_response 503 "container is starting")
  /\ res_status (Concrete.fault_response 503 "container is starting")
     <> 200%Z
  /\ g_status
       (snd (fetch (Concrete.post Concrete.render_url Concrete.hello_world)
               (Concrete.bare_env
                  (Concrete.fault_response 503 "container is starting"))
               Concrete.uuid))
     = 503%Z
  /\ g_status
       (snd (fetch (Concrete.post Concrete.render_url Concrete.hello_world)
               (Concrete.bare_env
                  (Concrete.fault_response 503 "container is starting"))
               Concrete.uuid))
     <> 500%Z.
Proof.
  repeat split; try discriminate.
  exists Concrete.hello_world. split; reflexivity.
Qed.

(** ** What every render attempt does *)

Section EveryAttempt.
Context {Number : Type} {RT : Runtime Number}.
Variables (request : Request Number) (env : Env Number) (renderId : string).
Hypothesis Hpath : pathname (req_url request) = "/render".


Lemma new_Response_relays text status ct (answer : GatewayResponse Number) :
  new_Response text status ct = inr answer ->
  answer = {| g_status := status;
              g_content_type := ct;
              g_payload := TextPayload text |}.
Proof.
  unfold new_Response.
  destruct (Z.ltb status 200 || Z.ltb 599 status); [discriminate |].
  destruct (null_body_status status && negb (String.eqb text EmptyString));
    [discriminate |].
  now intros [= <-].
Qed.

(** A request whose body parsed is forwarded exactly once, whatever
    happens afterwards. *)
Lemma fetch_forwards_once (originalBody : JSON Number) :
  req_json request = inr originalBody ->
  forwards (fst (fetch request env renderId))
  = [containerRequest request (enhancedBody originalBody renderId env)].
Proof.
  intros Hjson.
  destruct (REMOTION_CONTAINER env
              (containerRequest request
                 (enhancedBody originalBody renderId env)))
    as [message | response] eqn:Hfetch.
  - now rewrite (fetch_unreachable _ _ _ _ Hpath Hjson _ Hfetch).
  - destruct (Z.eq_dec (res_status response) 200) as [Hstatus | Hstatus].
    + destruct (declares_json response) eqn:Hkind.
      * now rewrite (fetch_manifest _ _ _ _ _ Hpath Hjson Hfetch Hstatus Hkind).
      * destruct (res_body response) as [body |] eqn:Hbody.
        -- now rewrite (fetch_stream _ _ _ _ _ Hpath Hjson Hfetch _
                          Hstatus Hkind Hbody).
        -- now rewrite (fetch_empty _ _ _ _ _ Hpath Hjson Hfetch
                          Hstatus Hkind Hbody).
    + now rewrite (fetch_fault _ _ _ _ _ Hpath Hjson Hfetch Hstatus).
Qed.




End EveryAttempt.

(** ** Routing *)



(** ** The correlation identifier in the payload *)




(** ** When the worker builds a storage client *)

Section WorkerPath.
Context {Number : Type} {RT : Runtime Number}.

Lemma truthy_is_defined (v : option (JSON Number)) :
  truthy v = true -> exists j, v = Some j.
Proof. destruct v as [j |]; [eauto | discriminate]. Qed.

(** Only an object has a truthy field. *)
Lemma truthy_field_of_object (config : option (JSON Number)) name :
  truthy (get_opt config name) = true -> truthy config = true.
Proof.
  destruct config as [[| b | n | s | items | props] |]; cbn;
    try discriminate; reflexivity.
Qed.

Lemma getS3Client_null (config : option (JSON Number)) :
  getS3Client config = None
  <-> truthy (get_opt config "accountId")
      && truthy (get_opt config "accessKeyId")
      && truthy (get_opt config "secretAccessKey") = false.
Proof.
  unfold getS3Client.
  destruct (truthy (get_opt config "accountId")) eqn:Ha;
    [| cbn; tauto].
  destruct (truthy (get_opt config "accessKeyId")) eqn:Hk;
    [| cbn; tauto].
  destruct (truthy (get_opt config "secretAccessKey")) eqn:Hs;
    [| cbn; tauto].
  apply truthy_is_defined in Ha, Hk, Hs.
  destruct Ha as [a ->], Hk as [k ->], Hs as [s ->].
  cbn. split; discriminate.
Qed.

End WorkerPath.

(** ** The credential on the forwarded job *)

Lemma r2Config_fields {Number : Type} (env : Env Number) :
  get_opt (Some (r2Config env)) "accountId"
  = opt_str (CLOUDFLARE_ACCOUNT_ID env)
  /\ get_opt (Some (r2Config env)) "accessKeyId"
     = opt_str (R2_ACCESS_KEY_ID env)
  /\ get_opt (Some (r2Config env)) "secretAccessKey"
     = opt_str (R2_SECRET_ACCESS_KEY env)
  /\ get_opt (Some (r2Config env)) "bucketName"
     = opt_str (R2_BUCKET_NAME env).
Proof.
  unfold r2Config.
  destruct (CLOUDFLARE_ACCOUNT_ID env), (R2_ACCESS_KEY_ID env),
    (R2_SECRET_ACCESS_KEY env), (R2_BUCKET_NAME env);
    repeat split; reflexivity.
Qed.

(** C4, as the code has it: the gateway makes no decision.  Every job it
    forwards carries an [r2Config] object, built from the configuration of
    this request; each of its four fields is there exactly when the
    matching variable is configured, so a gateway without credentials
    forwards an [r2Config] without those fields (not a job without
    [r2Config]), and that is no error.  The worker finds no usable
    credential in it exactly when the account id, the access key id or
    the secret is not configured or is empty. *)
Theorem credential_always_attached {Number : Type} {RT : Runtime Number}
  (request : Request Number) (env : Env Number) (renderId : string)
  (originalBody : JSON Number) :
  pathname (req_url request) = "/render" ->
  req_json request = inr originalBody ->
  exists job,
    forwards (fst (fetch request env renderId)) = [job]
    /\ get_opt (Some (c_body job)) "r2Config" = Some (r2Config env)
    /\ get_opt (Some (r2Config env)) "accountId"
       = opt_str (CLOUDFLARE_ACCOUNT_ID env)
    /\ get_opt (Some (r2Config env)) "accessKeyId"
       = opt_str (R2_ACCESS_KEY_ID env)
    /\ get_opt (Some (r2Config env)) "secretAccessKey"
       = opt_str (R2_SECRET_ACCESS_KEY env)
    /\ get_opt (Some (r2Config env)) "bucketName"
       = opt_str (R2_BUCKET_NAME env)
    /\ (getS3Client (get_opt (Some (c_body job)) "r2Config") = None
        <-> truthy (opt_str (CLOUDFLARE_ACCOUNT_ID env))
            && truthy (opt_str (R2_ACCESS_KEY_ID env))
            && truthy (opt_str (R2_SECRET_ACCESS_KEY env)) = false).
Proof.
  intros Hpath Hjson.
  exists (containerRequest request (enhancedBody originalBody renderId env)).
  split; [now apply fetch_forwards_once |].
  split; [apply enhancedBody_r2Config |].
  destruct (r2Config_fields env) as (Ha & Hk & Hs & Hb).
  repeat (split; [assumption |]).
  cbn [containerRequest c_body]. rewrite enhancedBody_r2Config.
  rewrite getS3Client_null. now rewrite Ha, Hk, Hs.
Qed.

Lemma credential_always_attached_witness :
  exists job,
    forwards
      (fst (fetch (Concrete.post Concrete.render_url Concrete.hello_world)
              (Concrete.bare_env Concrete.bodiless_response) Concrete.uuid))
    = [job]
    /\ get_opt (Some (c_body job)) "r2Config"
       = Some (JObj [("accountId", JStr "acct");
                     ("bucketName", JStr "remotion-renders")]).
Proof.
  destruct (credential_always_attached
              (Concrete.post Concrete.render_url Concrete.hello_world)
              (Concrete.bare_env Concrete.bodiless_response) Concrete.uuid
              Concrete.hello_world)
    as (job & Hforward & Hconfig & _).
  - reflexivity.
  - reflexivity.
  - exists job. split; [exact Hforward | exact Hconfig].
Defined.

(** C4 as worded fails: a gateway that holds neither access key nor
    secret still attaches a credential object to the job, with the account
    id and the bucket name it does hold; a gateway with no storage variable
    at all attaches an empty one. *)
Lemma credential_attached_without_secrets :
  R2_ACCESS_KEY_ID (Concrete.bare_env Concrete.bodiless_response) = None
  /\ R2_SECRET_ACCESS_KEY (Concrete.bare_env Concrete.bodiless_response)
     = None
  /\ (exists job,
        forwards
          (fst (fetch (Concrete.post Concrete.render_url Concrete.hello_world)
                  (Concrete.bare_env Concrete.bodiless_response)
                  Concrete.uuid))
        = [job]
        /\ get_opt (Some (c_body job)) "r2Config"
           = Some (JObj [("accountId", JStr "acct");
                         ("bucketName", JStr "remotion-renders")])
        /\ get_opt (Some (c_body job)) "r2Config" <> None)
  /\ (exists job,
        forwards
          (fst (fetch (Concrete.post Concrete.render_url Concrete.hello_world)
                  (Concrete.unconfigured_env Concrete.bodiless_response)
                  Concrete.uuid))
        = [job]
        /\ get_opt (Some (c_body job)) "r2Config" = Some (JObj [])).
Proof.
  repeat split.
  - eexists. repeat split. discriminate.
  - eexists. repeat split.
Qed.

(** ** Validation *)

Section Validation.
Context {Number : Type} {RT : Runtime Number} {Composition : Type}.
Variables (sys : Renderer Number Composition) (outputLocation : string).

(** The worker's guard: without a truthy [compositionId] it answers 400
    before it calls anything. *)
Lemma render_handler_rejects (body : JSON Number) :
  truthy (get_opt (Some body) "compositionId") = false ->
  render_handler sys outputLocation body
  = ([], res_json_reply 400 [("message", Some (JStr composition_required))]).
Proof.
  intros Hfalsy. unfold render_handler. now rewrite Hfalsy.
Qed.

Variables (request : Request Number) (env : Env Number) (renderId : string).
Variables (originalBody : JSON Number) (response : Response Number).
Hypothesis Hpath : pathname (req_url request) = "/render".
Hypothesis Hjson : req_json request = inr originalBody.
Hypothesis Hmissing :
  lookup "compositionId" (spread originalBody) = None
  \/ lookup "compositionId" (spread originalBody) = Some (JStr EmptyString).

Let job : ContainerRequest Number :=
  containerRequest request (enhancedBody originalBody renderId env).

Hypothesis Hfetch : REMOTION_CONTAINER env job = inr response.
Hypothesis Hdelivers :
  delivers (snd (render_handler sys outputLocation (c_body job))) response.

Lemma job_is_rejected :
  render_handler sys outputLocation (c_body job)
  = ([], res_json_reply 400 [("message", Some (JStr composition_required))]).
Proof.
  apply render_handler_rejects. cbn [job containerRequest c_body].
  rewrite enhancedBody_keeps by discriminate.
  destruct Hmissing as [-> | ->]; reflexivity.
Qed.

(** The whole round trip of a request without a [compositionId]. *)
Lemma missing_composition_round_trip :
  fetch request env renderId
  = ([RequestJson; ContainerFetch job; ResponseText],
     {| g_status := 400;
        g_content_type := "application/json";
        g_payload :=
          TextPayload
            (JSON_stringify (JObj [("message", JStr composition_required)])) |}).
Proof.
  pose proof Hdelivers as [Hstatus Hbody].
  rewrite job_is_rejected in Hstatus, Hbody.
  cbn in Hstatus, Hbody. destruct Hbody as (Htext & _ & _).
  rewrite (fetch_fault request env renderId originalBody response
             Hpath Hjson Hfetch)
    by (rewrite Hstatus; discriminate).
  fold job. rewrite Htext, Hstatus. reflexivity.
Qed.

End Validation.

(** C5, as the code has it: the 400 is the worker's, not the gateway's.
    A request for [/render] whose body parses as JSON and has no
    [compositionId] of its own, or has the empty string there, is
    answered 400 when the forward returns and the container has handed
    the job to the worker's handler and the reply back; the body of the
    answer is then the fixed message object
    [{ message: "`compositionId` is required." }] as the worker
    serialised it, whatever else the request holds. *)
Theorem missing_composition_is_400 {Number : Type} {RT : Runtime Number}
  {Composition : Type} (sys : Renderer Number Composition)
  (outputLocation : string) (request : Request Number) (env : Env Number)
  (renderId : string) (originalBody : JSON Number)
  (response : Response Number) :
  pathname (req_url request) = "/render" ->
  req_json request = inr originalBody ->
  lookup "compositionId" (spread originalBody) = None
  \/ lookup "compositionId" (spread originalBody) = Some (JStr EmptyString) ->
  REMOTION_CONTAINER env
    (containerRequest request (enhancedBody originalBody renderId env))
  = inr response ->
  delivers
    (snd (render_handler sys outputLocation
            (enhancedBody originalBody renderId env)))
    response ->
  snd (fetch request env renderId)
  = {| g_status := 400;
       g_content_type := "application/json";
       g_payload :=
         TextPayload
           (JSON_stringify
              (JObj [("message", JStr "`compositionId` is required.")])) |}.
Proof.
  intros Hpath Hjson Hmissing Hfetch Hdelivers.
  now rewrite (missing_composition_round_trip sys outputLocation request env
                 renderId originalBody response
                 Hpath Hjson Hmissing Hfetch Hdelivers).
Qed.

Lemma missing_composition_is_400_witness :
  g_status
    (snd (fetch
            (Concrete.post Concrete.render_url
               (JObj [("inputProps", JObj [("titleText", JStr "Hi")])]))
            (Concrete.env_with Concrete.worker_container None None)
            Concrete.uuid))
  = 400%Z.
Proof.
  rewrite (missing_composition_is_400 Concrete.studio Concrete.tmp_out
             (Concrete.post Concrete.render_url
                (JObj [("inputProps", JObj [("titleText", JStr "Hi")])]))
             (Concrete.env_with Concrete.worker_container None None)
             Concrete.uuid
             (JObj [("inputProps", JObj [("titleText", JStr "Hi")])])
             (Concrete.carry
                (snd (render_handler Concrete.studio Concrete.tmp_out
                        (enhancedBody
                           (JObj [("inputProps",
                                   JObj [("titleText", JStr "Hi")])])
                           Concrete.uuid
                           (Concrete.env_with Concrete.worker_container
                              None None)))))).
  - reflexivity.
  - reflexivity.
  - reflexivity.
  - left. reflexivity.
  - reflexivity.
  - repeat split; reflexivity.
Defined.

(** C5 as worded fails: a POST to [/render] whose body is the empty
    object, so without a [compositionId], is answered 500 when the worker
    cannot be reached, and a POST whose body cannot be read is answered
    500 as well; neither gets the 400. *)
Lemma missing_composition_can_get_500 :
  req_method (Concrete.post Concrete.render_url (JObj [])) = "POST"
  /\ pathname (req_url (Concrete.post Concrete.render_url (JObj [])))
     = "/render"
  /\ lookup "compositionId"
       (spread (JObj [] : JSON Z)) = None
  /\ g_status
       (snd (fetch (Concrete.post Concrete.render_url (JObj []))
               (Concrete.env_with (fun _ => inl "Container is not running")
                  None None)
               Concrete.uuid))
     = 500%Z
  /\ g_status
       (snd (fetch (Concrete.post Concrete.render_url (JObj []))
               (Concrete.env_with (fun _ => inl "Container is not running")
                  None None)
               Concrete.uuid))
     <> 400%Z
  /\ req_json (with_method "POST" (Concrete.get Concrete.render_url))
     = inl "Unexpected end of JSON input"
  /\ g_status
       (snd (fetch (with_method "POST" (Concrete.get Concrete.render_url))
               (Concrete.env_with Concrete.worker_container None None)
               Concrete.uuid))
     = 500%Z.
Proof.
  repeat split; try reflexivity. vm_compute. discriminate.
Qed.

(** C6, as the code has it: the gateway validates nothing itself.  A body
    that cannot be read as JSON never reaches the worker and is answered
    500 by the catch handler.  A body without a [compositionId] (or with
    an empty one) is forwarded, once; it is the worker that turns it
    down, with 400 and before any call to the renderer, and the gateway
    relays that 400. *)
Theorem validation_happens_in_worker {Number : Type} {RT : Runtime Number}
  {Composition : Type} (sys : Renderer Number Composition)
  (outputLocation : string) (request : Request Number) (env : Env Number)
  (renderId : string) :
  pathname (req_url request) = "/render" ->
  (forall message,
     req_json request = inl message ->
     forwards (fst (fetch request env renderId)) = []
     /\ snd (fetch request env renderId) = render_failed renderId message
     /\ g_status (snd (fetch request env renderId)) = 500%Z)
  /\ (forall originalBody response,
        req_json request = inr originalBody ->
        lookup "compositionId" (spread originalBody) = None
        \/ lookup "compositionId" (spread originalBody)
           = Some (JStr EmptyString) ->
        REMOTION_CONTAINER env
          (containerRequest request (enhancedBody originalBody renderId env))
        = inr response ->
        delivers
          (snd (render_handler sys outputLocation
                  (enhancedBody originalBody renderId env)))
          response ->
        forwards (fst (fetch request env renderId))
        = [containerRequest request
             (enhancedBody originalBody renderId env)]
        /\ fst (render_handler sys outputLocation
                  (enhancedBody originalBody renderId env)) = []
        /\ g_status (snd (fetch request env renderId)) = 400%Z).
Proof.
  intros Hpath. split.
  - intros message Hjson.
    rewrite (fetch_unparsed request env renderId message Hpath Hjson).
    repeat split.
  - intros originalBody response Hjson Hmissing Hfetch Hdelivers.
    split; [now apply fetch_forwards_once |]. split.
    + now rewrite (job_is_rejected sys outputLocation request env renderId
                     originalBody Hmissing).
    + now rewrite (missing_composition_round_trip sys outputLocation request
                     env renderId originalBody response
                     Hpath Hjson Hmissing Hfetch Hdelivers).
Qed.

Lemma validation_happens_in_worker_witness :
  forwards
    (fst (fetch (Concrete.get Concrete.render_url)
            (Concrete.env_with Concrete.worker_container None None)
            Concrete.uuid))
  = []
  /\ g_status
       (snd (fetch (Concrete.get Concrete.render_url)
               (Concrete.env_with Concrete.worker_container None None)
               Concrete.uuid))
     = 500%Z.
Proof.
  destruct (validation_happens_in_worker Concrete.studio Concrete.tmp_out
              (Concrete.get Concrete.render_url)
              (Concrete.env_with Concrete.worker_container None None)
              Concrete.uuid)
    as [Hunread _].
  - reflexivity.
  - destruct (Hunread "Unexpected end of JSON input") as (Hnone & _ & H500).
    + reflexivity.
    + split; [exact Hnone | exact H500].
Defined.

(** C6 as worded fails twice: the empty object [{}] is forwarded to the
    worker (and only then answered 400), and a request whose body is not
    JSON is answered 500, not 400. *)
Lemma validation_not_in_gateway :
  forwards
    (fst (fetch (Concrete.post Concrete.render_url (JObj []))
            (Concrete.env_with Concrete.worker_container None None)
            Concrete.uuid))
  <> []
  /\ g_status
       (snd (fetch (Concrete.post Concrete.render_url (JObj []))
               (Concrete.env_with Concrete.worker_container None None)
               Concrete.uuid))
     = 400%Z
  /\ req_json (Concrete.get Concrete.render_url)
     = inl "Unexpected end of JSON input"
  /\ g_status
       (snd (fetch (Concrete.get Concrete.render_url)
               (Concrete.env_with Concrete.worker_container None None)
               Concrete.uuid))
     <> 400%Z.
Proof.
  repeat split; try reflexivity; vm_compute; discriminate.
Qed.

(** ** The worker's choice of path *)



(** ** The two programs together *)

(** A gateway that holds all four storage variables, in front of the
    worker: the worker uploads by itself and the gateway answers from the
    manifest, without a write of its own. *)
Example with_credentials_worker_uploads :
  fetch (Concrete.post Concrete.render_url Concrete.hello_world)
    (Concrete.env_with Concrete.worker_container
       (Some "AKIDEXAMPLE") (Some "s3cr3t"))
    Concrete.uuid
  = ([RequestJson;
      ContainerFetch
        (containerRequest
           (Concrete.post Concrete.render_url Concrete.hello_world)
           (enhancedBody Concrete.hello_world Concrete.uuid
              (Concrete.env_with Concrete.worker_container
                 (Some "AKIDEXAMPLE") (Some "s3cr3t"))));
      ResponseJson],
     Response_json
       [("renderId", Some (JStr Concrete.uuid));
        ("bucketName", Some (JStr "remotion-renders"));
        ("key", Some (JStr (Concrete.uuid ++ ".mp4")));
        ("size", Some (JNum 4%Z));
        ("url", Some (JStr (public_base ++ Concrete.uuid ++ ".mp4")))]
       200).
Proof. reflexivity. Qed.

(** The same gateway without its two secrets: the worker sends the bytes
    back and the gateway stores them. *)
Example without_secrets_gateway_stores :
  bucket_writes
    (fst (fetch (Concrete.post Concrete.render_url Concrete.hello_world)
            (Concrete.env_with Concrete.worker_container None None)
            Concrete.uuid))
  = [(Concrete.uuid ++ ".mp4", Concrete.four_bytes, "video/mp4")].
Proof. reflexivity. Qed.

(** * Further properties of the gateway *)

(** X1: a render request whose body parses is forwarded to the worker
    exactly once, whatever the worker answers and whatever fails later:
    there is no second attempt.  The forwarded request goes to the URL of
    the inbound one, always as a POST that declares JSON, whatever the
    inbound method was. *)
Theorem forwarded_once_as_post {Number : Type} {RT : Runtime Number}
  (request : Request Number) (env : Env Number) (renderId : string)
  (originalBody : JSON Number) :
  pathname (req_url request) = "/render" ->
  req_json request = inr originalBody ->
  exists job,
    forwards (fst (fetch request env renderId)) = [job]
    /\ c_url job = href (req_url request)
    /\ c_method job = "POST"
    /\ c_headers job = [("Content-Type", "application/json")]
    /\ c_body job = enhancedBody originalBody renderId env.
Proof.
  intros Hpath Hjson.
  exists (containerRequest request (enhancedBody originalBody renderId env)).
  split; [| repeat split].
  now apply fetch_forwards_once.
Qed.

Lemma forwarded_once_as_post_witness :
  exists job,
    forwards
      (fst (fetch
              (with_method "PUT"
                 (Concrete.post Concrete.render_url Concrete.hello_world))
              (Concrete.bare_env
                 (Concrete.fault_response 500 "renderer crashed"))
              Concrete.uuid))
    = [job]
    /\ c_method job = "POST".
Proof.
  destruct (forwarded_once_as_post
              (with_method "PUT"
                 (Concrete.post Concrete.render_url Concrete.hello_world))
              (Concrete.bare_env
                 (Concrete.fault_response 500 "renderer crashed"))
              Concrete.uuid Concrete.hello_world)
    as (job & Honce & _ & Hmethod & _).
  - reflexivity.
  - reflexivity.
  - exists job. split; assumption.
Defined.

(** X2: whatever the request, the gateway writes to the bucket at most
    once, and only the body of a worker response with status 200 that
    does not declare JSON, under [{renderId}.mp4] as [video/mp4]; in every
    other case it writes nothing. *)
Theorem at_most_one_bucket_write {Number : Type} {RT : Runtime Number}
  (request : Request Number) (env : Env Number) (renderId : string) :
  bucket_writes (fst (fetch request env renderId)) = []
  \/ exists response body,
       worker_response request env renderId response
       /\ res_status response = 200%Z
       /\ declares_json response = false
       /\ res_body response = Some body
       /\ bucket_writes (fst (fetch request env renderId))
          = [(renderId ++ ".mp4", body, "video/mp4")].
Proof.
  destruct (String.eqb (pathname (req_url request)) "/render") eqn:Hpath.
  2: { left. unfold fetch. now rewrite Hpath. }
  apply String.eqb_eq in Hpath.
  destruct (req_json request) as [message | originalBody] eqn:Hjson.
  { left. now rewrite (fetch_unparsed _ _ _ _ Hpath Hjson). }
  destruct (REMOTION_CONTAINER env
              (containerRequest request
                 (enhancedBody originalBody renderId env)))
    as [message | response] eqn:Hfetch.
  { left. now rewrite (fetch_unreachable _ _ _ _ Hpath Hjson _ Hfetch). }
  destruct (Z.eq_dec (res_status response) 200) as [Hstatus | Hstatus].
  - destruct (declares_json response) eqn:Hkind.
    + left.
      now rewrite (fetch_manifest _ _ _ _ _ Hpath Hjson Hfetch Hstatus Hkind).
    + destruct (res_body response) as [body |] eqn:Hbody.
      * right. exists response, body.
        rewrite (fetch_stream _ _ _ _ _ Hpath Hjson Hfetch _
                   Hstatus Hkind Hbody).
        repeat split; try assumption.
        exists originalBody. now split.
      * left.
        now rewrite (fetch_empty _ _ _ _ _ Hpath Hjson Hfetch
                       Hstatus Hkind Hbody).
  - left. now rewrite (fetch_fault _ _ _ _ _ Hpath Hjson Hfetch Hstatus).
Qed.

(** X3: the caller cannot choose the identifier or the credential of its
    job.  Whatever the request body holds, also under the names
    [renderId] and [r2Config], the forwarded job has the gateway's
    [renderId] and the gateway's [r2Config]; every other property of the
    body is forwarded as it came. *)
Theorem caller_cannot_override {Number : Type} {RT : Runtime Number}
  (request : Request Number) (env : Env Number) (renderId : string)
  (originalBody : JSON Number) :
  pathname (req_url request) = "/render" ->
  req_json request = inr originalBody ->
  exists job,
    forwards (fst (fetch request env renderId)) = [job]
    /\ get_opt (Some (c_body job)) "renderId" = Some (JStr renderId)
    /\ get_opt (Some (c_body job)) "r2Config" = Some (r2Config env)
    /\ forall name,
         name <> "renderId" -> name <> "r2Config" ->
         get_opt (Some (c_body job)) name
         = lookup name (spread originalBody).
Proof.
  intros Hpath Hjson.
  exists (containerRequest request (enhancedBody originalBody renderId env)).
  split; [now apply fetch_forwards_once |].
  cbn [containerRequest c_body].
  split; [apply enhancedBody_renderId |].
  split; [apply enhancedBody_r2Config |].
  intros name Hid Hconfig. now apply enhancedBody_keeps.
Qed.

Lemma caller_cannot_override_witness :
  exists job,
    forwards
      (fst (fetch
              (Concrete.post Concrete.render_url
                 (JObj [("renderId", JStr "mine");
                        ("compositionId", JStr "HelloWorld");
                        ("r2Config", JObj [("accountId", JStr "theirs")])]))
              (Concrete.bare_env Concrete.bodiless_response) Concrete.uuid))
    = [job]
    /\ get_opt (Some (c_body job)) "renderId" = Some (JStr Concrete.uuid)
    /\ get_opt (Some (c_body job)) "compositionId"
       = Some (JStr "HelloWorld").
Proof.
  destruct (caller_cannot_override
              (Concrete.post Concrete.render_url
                 (JObj [("renderId", JStr "mine");
                        ("compositionId", JStr "HelloWorld");
                        ("r2Config", JObj [("accountId", JStr "theirs")])]))
              (Concrete.bare_env Concrete.bodiless_response) Concrete.uuid
              (JObj [("renderId", JStr "mine");
                     ("compositionId", JStr "HelloWorld");
                     ("r2Config", JObj [("accountId", JStr "theirs")])]))
    as (job & Honce & Hid & _ & Hkeeps).
  - reflexivity.
  - reflexivity.
  - exists job. split; [exact Honce |]. split; [exact Hid |].
    rewrite Hkeeps by discriminate. reflexivity.
Defined.

(** X4: when the forward to the worker throws (the container cannot be
    reached), the caller gets 500 with the error [Render failed], the
    message of the thrown error and the [renderId]; the gateway has read
    no response and written nothing. *)
Theorem unreachable_worker_is_500 {Number : Type} {RT : Runtime Number}
  (request : Request Number) (env : Env Number) (renderId : string)
  (originalBody : JSON Number) (message : string) :
  pathname (req_url request) = "/render" ->
  req_json request = inr originalBody ->
  REMOTION_CONTAINER env
    (containerRequest request (enhancedBody originalBody renderId env))
  = inl message ->
  fst (fetch request env renderId)
  = [RequestJson;
     ContainerFetch
       (containerRequest request (enhancedBody originalBody renderId env))]
  /\ g_status (snd (fetch request env renderId)) = 500%Z
  /\ answer_prop (snd (fetch request env renderId)) "error"
     = Some (JStr "Render failed")
  /\ answer_prop (snd (fetch request env renderId)) "message"
     = Some (JStr message)
  /\ answer_prop (snd (fetch request env renderId)) "renderId"
     = Some (JStr renderId).
Proof.
  intros Hpath Hjson Hfetch.
  rewrite (fetch_unreachable request env renderId originalBody
             Hpath Hjson message Hfetch).
  repeat split.
Qed.

Lemma unreachable_worker_is_500_witness :
  g_status
    (snd (fetch (Concrete.post Concrete.render_url Concrete.hello_world)
            (Concrete.env_with (fun _ => inl "Container is not running")
               None None)
            Concrete.uuid))
  = 500%Z.
Proof.
  destruct (unreachable_worker_is_500
              (Concrete.post Concrete.render_url Concrete.hello_world)
              (Concrete.env_with (fun _ => inl "Container is not running")
                 None None)
              Concrete.uuid Concrete.hello_world "Container is not running")
    as (_ & H500 & _).
  - reflexivity.
  - reflexivity.
  - reflexivity.
  - exact H500.
Defined.



(** X6: on the manifest path, a manifest that cannot be read as JSON, or
    that is the JSON value [null], is answered 500 [Render failed] with
    the [renderId]; nothing is written to the bucket, even when the
    response has a body. *)
Theorem unreadable_manifest_is_500 {Number : Type} {RT : Runtime Number}
  (request : Request Number) (env : Env Number) (renderId : string)
  (response : Response Number) :
  worker_response request env renderId response ->
  res_status response = 200%Z ->
  declares_json response = true ->
  (exists message, res_json response = inl message)
  \/ res_json response = inr JNull ->
  bucket_writes (fst (fetch request env renderId)) = []
  /\ g_status (snd (fetch request env renderId)) = 500%Z
  /\ answer_prop (snd (fetch request env renderId)) "error"
     = Some (JStr "Render failed")
  /\ answer_prop (snd (fetch request env renderId)) "renderId"
     = Some (JStr renderId)
  /\ (forall message,
        res_json response = inl message ->
        answer_prop (snd (fetch request env renderId)) "message"
        = Some (JStr message)).
Proof.
  intros (Hpath & originalBody & Hjson & Hfetch) Hstatus Hkind Hbad.
  rewrite (fetch_manifest request env renderId originalBody response
             Hpath Hjson Hfetch Hstatus Hkind).
  cbn [fst snd].
  destruct Hbad as [[message Hbad] | Hbad]; rewrite Hbad.
  - repeat split. now intros message' [= <-].
  - repeat split. discriminate.
Qed.

Lemma unreadable_manifest_is_500_witness :
  g_status
    (snd (fetch (Concrete.post Concrete.render_url Concrete.hello_world)
            (Concrete.bare_env (Concrete.manifest_response JNull))
            Concrete.uuid))
  = 500%Z.
Proof.
  destruct (unreadable_manifest_is_500
              (Concrete.post Concrete.render_url Concrete.hello_world)
              (Concrete.bare_env (Concrete.manifest_response JNull))
              Concrete.uuid (Concrete.manifest_response JNull))
    as (_ & H500 & _).
  - split; [reflexivity |]. exists Concrete.hello_world. split; reflexivity.
  - reflexivity.
  - reflexivity.
  - right. reflexivity.
  - exact H500.
Defined.

(** X7: the manifest is not checked.  When it is a JSON value other than
    [null] without a [key] of its own, the gateway still answers 200: the
    answer has no [key], and its [url] is the public base followed by the
    text [undefined]. *)
Theorem manifest_without_key {Number : Type} {RT : Runtime Number}
  (request : Request Number) (env : Env Number) (renderId : string)
  (response : Response Number) (result : JSON Number) :
  worker_response request env renderId response ->
  res_status response = 200%Z ->
  declares_json response = true ->
  res_json response = inr result ->
  result <> JNull ->
  get_opt (Some result) "key" = None ->
  g_status (snd (fetch request env renderId)) = 200%Z
  /\ answer_prop (snd (fetch request env renderId)) "key" = None
  /\ answer_prop (snd (fetch request env renderId)) "url"
     = Some (JStr "https://renders.tremendous.dev/undefined").
Proof.
  intros (Hpath & originalBody & Hjson & Hfetch) Hstatus Hkind Hresult
    Hnull Hkey.
  rewrite (fetch_manifest request env renderId originalBody response
             Hpath Hjson Hfetch Hstatus Hkind).
  cbn [snd]. rewrite Hresult.
  assert (Hprop : forall name,
            get_prop result name = inr (get_opt (Some result) name)).
  { intros name. destruct result; try reflexivity. contradiction. }
  rewrite !Hprop, Hkey.
  unfold answer_prop, Response_json. cbn [g_status g_payload].
  destruct (R2_BUCKET_NAME env), (get_opt (Some result) "size");
    repeat split.
Qed.

Lemma manifest_without_key_witness :
  answer_prop
    (snd (fetch (Concrete.post Concrete.render_url Concrete.hello_world)
            (Concrete.bare_env
               (Concrete.manifest_response (JObj [("size", JNum 7%Z)])))
            Concrete.uuid))
    "url"
  = Some (JStr "https://renders.tremendous.dev/undefined").
Proof.
  destruct (manifest_without_key
              (Concrete.post Concrete.render_url Concrete.hello_world)
              (Concrete.bare_env
                 (Concrete.manifest_response (JObj [("size", JNum 7%Z)])))
              Concrete.uuid
              (Concrete.manifest_response (JObj [("size", JNum 7%Z)]))
              (JObj [("size", JNum 7%Z)]))
    as (_ & _ & Hurl).
  - split; [reflexivity |]. exists Concrete.hello_world. split; reflexivity.
  - reflexivity.
  - reflexivity.
  - reflexivity.
  - discriminate.
  - reflexivity.
  - exact Hurl.
Defined.

(** ** How the declared content type is tested *)

Lemma prefix_append (s t : string) : String.prefix s (s ++ t) = true.
Proof.
  induction s as [| c s IH]; cbn.
  - now destruct t.
  - destruct (ascii_dec c c) as [_ | Hne]; [exact IH | now contradiction Hne].
Qed.

Lemma index_found_at_start (sub t : string) :
  exists n, String.index 0 sub (sub ++ t) = Some n.
Proof.
  destruct (sub ++ t) as [| c rest] eqn:E.
  - destruct sub; [| discriminate E]. exists 0. reflexivity.
  - exists 0. cbn [String.index]. rewrite <- E. now rewrite prefix_append.
Qed.

(** [s.includes(sub)] is true wherever [sub] stands in [s]. *)
Lemma includes_append (before sub after : string) :
  includes (before ++ sub ++ after) sub = true.
Proof.
  unfold includes.
  assert (H : exists n, String.index 0 sub (before ++ sub ++ after) = Some n).
  { induction before as [| c before IH].
    - cbn [append]. apply index_found_at_start.
    - destruct IH as [n IH]. cbn [append String.index].
      destruct (String.prefix sub (String c (before ++ sub ++ after)));
        [now exists 0 |].
      rewrite IH. now exists (S n). }
  destruct H as [n ->]. reflexivity.
Qed.

(** X8: the worker's answer is taken for a manifest when its
    [Content-Type] holds the text [application/json] anywhere, with
    whatever stands before or after it (a charset parameter, say): then
    nothing is written to the bucket.  A 200 answer with a body and no
    [Content-Type] header at all is taken for the video and stored. *)
Theorem content_type_decides_path {Number : Type} {RT : Runtime Number}
  (request : Request Number) (env : Env Number) (renderId : string)
  (response : Response Number) :
  worker_response request env renderId response ->
  res_status response = 200%Z ->
  (forall before after,
     res_headers_get response "Content-Type"
     = Some (before ++ "application/json" ++ after) ->
     declares_json response = true
     /\ bucket_writes (fst (fetch request env renderId)) = [])
  /\ (forall body,
        res_headers_get response "Content-Type" = None ->
        res_body response = Some body ->
        declares_json response = false
        /\ bucket_writes (fst (fetch request env renderId))
           = [(renderId ++ ".mp4", body, "video/mp4")]).
Proof.
  intros (Hpath & originalBody & Hjson & Hfetch) Hstatus. split.
  - intros before after Hheader.
    assert (Hkind : declares_json response = true).
    { unfold declares_json, contentType. rewrite Hheader.
      apply includes_append. }
    split; [exact Hkind |].
    now rewrite (fetch_manifest request env renderId originalBody response
                   Hpath Hjson Hfetch Hstatus Hkind).
  - intros body Hheader Hbody.
    assert (Hkind : declares_json response = false).
    { unfold declares_json, contentType. now rewrite Hheader. }
    split; [exact Hkind |].
    now rewrite (fetch_stream request env renderId originalBody response
                   Hpath Hjson Hfetch body Hstatus Hkind Hbody).
Qed.

Lemma content_type_decides_path_witness :
  bucket_writes
    (fst (fetch (Concrete.post Concrete.render_url Concrete.hello_world)
            (Concrete.bare_env
               (Concrete.manifest_response
                  (JObj [("key", JStr "abc.mp4"); ("size", JNum 2048%Z)])))
            Concrete.uuid))
  = [].
Proof.
  destruct (content_type_decides_path
              (Concrete.post Concrete.render_url Concrete.hello_world)
              (Concrete.bare_env
                 (Concrete.manifest_response
                    (JObj [("key", JStr "abc.mp4"); ("size", JNum 2048%Z)])))
              Concrete.uuid
              (Concrete.manifest_response
                 (JObj [("key", JStr "abc.mp4"); ("size", JNum 2048%Z)])))
    as [Hmanifest _].
  - split; [reflexivity |]. exists Concrete.hello_world. split; reflexivity.
  - reflexivity.
  - apply (Hmanifest EmptyString "; charset=utf-8"). reflexivity.
Defined.

(** ** Statuses without a body *)

(** X9: a worker answer with status 204, 205 or 304 has no body, and
    its text reads as the empty text.  The gateway relays it like any
    other status that is not 200: the caller gets the worker's status
    with an empty body, and nothing is written to the bucket. *)
Theorem null_body_status_relayed {Number : Type} {RT : Runtime Number}
  (request : Request Number) (env : Env Number) (renderId : string)
  (response : Response Number) :
  worker_response request env renderId response ->
  res_status response = 204%Z \/ res_status response = 205%Z
  \/ res_status response = 304%Z ->
  res_text response = inr EmptyString ->
  bucket_writes (fst (fetch request env renderId)) = []
  /\ snd (fetch request env renderId)
     = {| g_status := res_status response;
          g_content_type := "application/json";
          g_payload := TextPayload EmptyString |}.
Proof.
  intros (Hpath & originalBody & Hjson & Hfetch) Hstatus Htext.
  rewrite (fetch_fault request env renderId originalBody response
             Hpath Hjson Hfetch)
    by (destruct Hstatus as [-> | [-> | ->]]; discriminate).
  cbn [fst snd]. rewrite Htext.
  destruct Hstatus as [-> | [-> | ->]]; split; reflexivity.
Qed.

Lemma null_body_status_relayed_witness :
  g_status
    (snd (fetch (Concrete.post Concrete.render_url Concrete.hello_world)
            (Concrete.bare_env (Concrete.fault_response 204 EmptyString))
            Concrete.uuid))
  = 204%Z.
Proof.
  destruct (null_body_status_relayed
              (Concrete.post Concrete.render_url Concrete.hello_world)
              (Concrete.bare_env (Concrete.fault_response 204 EmptyString))
              Concrete.uuid (Concrete.fault_response 204 EmptyString))
    as (_ & Hanswer).
  - split; [reflexivity |]. exists Concrete.hello_world. split; reflexivity.
  - left. reflexivity.
  - reflexivity.
  - rewrite Hanswer. reflexivity.
Defined.

(** ** The shape of a success *)

(** X10: every 200 answer to a render attempt is a JSON object that names
    the [renderId] and whose [url] is the public base followed by its
    [key] as text (by [undefined] when it has no [key]). *)
Theorem success_url_follows_key {Number : Type} {RT : Runtime Number}
  (request : Request Number) (env : Env Number) (renderId : string) :
  pathname (req_url request) = "/render" ->
  g_status (snd (fetch request env renderId)) = 200%Z ->
  answer_prop (snd (fetch request env renderId)) "renderId"
  = Some (JStr renderId)
  /\ answer_prop (snd (fetch request env renderId)) "url"
     = Some (JStr ("https://renders.tremendous.dev/"
                   ++ template
                        (answer_prop (snd (fetch request env renderId))
                           "key"))).
Proof.
  intros Hpath.
  destruct (req_json request) as [message | originalBody] eqn:Hjson.
  { rewrite (fetch_unparsed _ _ _ _ Hpath Hjson). discriminate. }
  destruct (REMOTION_CONTAINER env
              (containerRequest request
                 (enhancedBody originalBody renderId env)))
    as [message | response] eqn:Hfetch.
  { rewrite (fetch_unreachable _ _ _ _ Hpath Hjson _ Hfetch). discriminate. }
  destruct (Z.eq_dec (res_status response) 200) as [Hstatus | Hstatus].
  - destruct (declares_json response) eqn:Hkind.
    + rewrite (fetch_manifest _ _ _ _ _ Hpath Hjson Hfetch Hstatus Hkind).
      cbn [snd].
      destruct (res_json response) as [message | result];
        [discriminate |].
      destruct (get_prop result "key") as [message | key];
        [discriminate |].
      destruct (get_prop result "size") as [message | size];
        [discriminate |].
      intros _. unfold answer_prop, Response_json. cbn [g_payload].
      destruct (R2_BUCKET_NAME env), key, size; split; reflexivity.
    + destruct (res_body response) as [body |] eqn:Hbody.
      * rewrite (fetch_stream _ _ _ _ _ Hpath Hjson Hfetch _
                   Hstatus Hkind Hbody).
        cbn [snd].
        destruct (R2_BUCKET env (renderId ++ ".mp4") body "video/mp4");
          [discriminate |].
        intros _. unfold answer_prop, Response_json. cbn [g_payload].
        destruct (R2_BUCKET_NAME env); split; reflexivity.
      * rewrite (fetch_empty _ _ _ _ _ Hpath Hjson Hfetch
                   Hstatus Hkind Hbody).
        discriminate.
  - rewrite (fetch_fault _ _ _ _ _ Hpath Hjson Hfetch Hstatus). cbn [snd].
    destruct (res_text response) as [message | errorText];
      [discriminate |].
    destruct (new_Response errorText (res_status response) "application/json")
      as [message | answer] eqn:Hnew; [discriminate |].
    apply new_Response_relays in Hnew. rewrite Hnew. cbn [g_status].
    intros H200. contradiction.
Qed.

Lemma success_url_follows_key_witness :
  answer_prop
    (snd (fetch (Concrete.post Concrete.render_url Concrete.hello_world)
            (Concrete.bare_env
               (Concrete.stream_response "video/mp4" Concrete.four_bytes))
            Concrete.uuid))
    "url"
  = Some (JStr ("https://renders.tremendous.dev/" ++ Concrete.uuid ++ ".mp4")).
Proof.
  destruct (success_url_follows_key
              (Concrete.post Concrete.render_url Concrete.hello_world)
              (Concrete.bare_env
                 (Concrete.stream_response "video/mp4" Concrete.four_bytes))
              Concrete.uuid)
    as [_ Hurl].
  - reflexivity.
  - reflexivity.
  - rewrite Hurl. reflexivity.
Defined.

(** * Further properties of the render worker *)

Section Rendered.
Context {Number : Type} {RT : Runtime Number} {Composition : Type}.
Variables (sys : Renderer Number Composition) (outputLocation : string).
Variables (body : JSON Number) (composition : Composition).
Variable fileBuffer : Stream.

Let compositionId := get_opt (Some body) "compositionId".
Let inputProps := get_opt (Some body) "inputProps".
Let renderId := get_opt (Some body) "renderId".
Let config := get_opt (Some body) "r2Config".

Hypothesis Hid : truthy compositionId = true.
Hypothesis Hselect :
  selectComposition sys compositionId inputProps = inr composition.
Hypothesis Hrender :
  renderMedia sys composition inputProps outputLocation = inr tt.
Hypothesis Hread : readFile sys outputLocation = inr fileBuffer.

Let rendered_calls : list (WorkerCall Number) :=
  [SelectComposition compositionId inputProps;
   RenderMedia inputProps outputLocation;
   ReadFile outputLocation].

Let upload_command : PutObjectCommand Number :=
  {| Bucket := get_opt config "bucketName";
     Key := template renderId ++ ".mp4";
     Body := fileBuffer;
     ContentType := "video/mp4" |}.

(** The handler once the video is rendered and read back, when the four
    upload fields are present. *)
Lemma handler_uploads :
  upload_fields_present body = true ->
  exists client,
    getS3Client config = Some client
    /\ render_handler sys outputLocation body
       = ((rendered_calls ++ [S3Send client upload_command])%list,
          match s3_send sys client upload_command with
          | inl stack =>
              res_json_reply 500
                [("message", Some (JStr "Error rendering video."));
                 ("error", Some (JStr stack))]
          | inr _ =>
              res_json_reply 200
                [("success", Some (JBool true));
                 ("renderId", renderId);
                 ("key", Some (JStr (template renderId ++ ".mp4")));
                 ("size", Some (JNum (number_of_nat (length fileBuffer))));
                 ("uploadedToR2", Some (JBool true))]
          end).
Proof.
  unfold upload_fields_present. fold config renderId. intros Hfields.
  apply andb_prop in Hfields as [Hcreds Hrid].
  destruct (getS3Client config) as [client |] eqn:Hclient.
  2: { apply getS3Client_null in Hclient. congruence. }
  exists client. split; [reflexivity |].
  assert (Hconfig : truthy config = true).
  { apply andb_prop in Hcreds as [Hcreds _].
    apply andb_prop in Hcreds as [Hcreds _].
    now apply truthy_field_of_object in Hcreds. }
  unfold render_handler.
  fold compositionId inputProps renderId config.
  rewrite Hid. cbn [negb Eff.bind Eff.await]. rewrite Hselect.
  cbn [Eff.bind Eff.await]. rewrite Hrender.
  cbn [Eff.bind Eff.await]. rewrite Hread, Hclient, Hrid, Hconfig.
  cbn [andb]. fold upload_command.
  destruct (s3_send sys client upload_command) as [stack | []]; reflexivity.
Qed.

End Rendered.

(** X11: when the renderer fails at any step (selecting the composition,
    rendering, reading the file back), the worker answers 500 with the
    message [Error rendering video.] and the error's stack; it uploads
    nothing and sends no bytes. *)
Theorem renderer_failure_is_500 {Number : Type} {RT : Runtime Number}
  {Composition : Type} (sys : Renderer Number Composition)
  (outputLocation : string) (body : JSON Number) (stack : string) :
  truthy (get_opt (Some body) "compositionId") = true ->
  selectComposition sys (get_opt (Some body) "compositionId")
    (get_opt (Some body) "inputProps") = inl stack
  \/ (exists composition,
        selectComposition sys (get_opt (Some body) "compositionId")
          (get_opt (Some body) "inputProps") = inr composition
        /\ (renderMedia sys composition (get_opt (Some body) "inputProps")
              outputLocation = inl stack
            \/ (renderMedia sys composition
                  (get_opt (Some body) "inputProps") outputLocation = inr tt
                /\ readFile sys outputLocation = inl stack))) ->
  snd (render_handler sys outputLocation body)
  = {| e_status := 500;
       e_headers := [];
       e_body :=
         SendJson (JObj [("message", JStr "Error rendering video.");
                         ("error", JStr stack)]) |}
  /\ s3_sends (fst (render_handler sys outputLocation body)) = [].
Proof.
  intros Hid Hfail. unfold render_handler. rewrite Hid. cbn [negb].
  destruct Hfail as [Hselect | (composition & Hselect & Hfail)].
  - cbn [Eff.bind Eff.await]. rewrite Hselect. split; reflexivity.
  - cbn [Eff.bind Eff.await]. rewrite Hselect.
    destruct Hfail as [Hrender | [Hrender Hread]].
    + cbn [Eff.bind Eff.await]. rewrite Hrender. split; reflexivity.
    + cbn [Eff.bind Eff.await]. rewrite Hrender.
      cbn [Eff.bind Eff.await]. rewrite Hread. split; reflexivity.
Qed.

Lemma renderer_failure_is_500_witness :
  e_status
    (snd (render_handler
            {| selectComposition :=
                 fun _ _ => inl "Error: Could not find composition";
               renderMedia := fun (_ : unit) _ _ => inr tt;
               readFile := fun _ => inr Concrete.four_bytes;
               s3_send := fun _ _ => inr tt |}
            Concrete.tmp_out Concrete.job_without_bucket))
  = 500%Z.
Proof.
  destruct (renderer_failure_is_500
              {| selectComposition :=
                   fun _ _ => inl "Error: Could not find composition";
                 renderMedia := fun (_ : unit) _ _ => inr tt;
                 readFile := fun _ => inr Concrete.four_bytes;
                 s3_send := fun _ _ => inr tt |}
              Concrete.tmp_out Concrete.job_without_bucket
              "Error: Could not find composition")
    as [Hreply _].
  - reflexivity.
  - left. reflexivity.
  - rewrite Hreply. reflexivity.
Defined.

(** X12: when the worker's own upload throws, the worker answers 500 with
    the error's stack; it does not fall back to sending the bytes, and it
    tried the upload once. *)
Theorem upload_failure_is_500 {Number : Type} {RT : Runtime Number}
  {Composition : Type} (sys : Renderer Number Composition)
  (outputLocation : string) (body : JSON Number) (composition : Composition)
  (fileBuffer : Stream) (stack : string) :
  truthy (get_opt (Some body) "compositionId") = true ->
  selectComposition sys (get_opt (Some body) "compositionId")
    (get_opt (Some body) "inputProps") = inr composition ->
  renderMedia sys composition (get_opt (Some body) "inputProps")
    outputLocation = inr tt ->
  readFile sys outputLocation = inr fileBuffer ->
  upload_fields_present body = true ->
  (forall client command, s3_send sys client command = inl stack) ->
  snd (render_handler sys outputLocation body)
  = {| e_status := 500;
       e_headers := [];
       e_body :=
         SendJson (JObj [("message", JStr "Error rendering video.");
                         ("error", JStr stack)]) |}
  /\ length (s3_sends (fst (render_handler sys outputLocation body))) = 1.
Proof.
  intros Hid Hselect Hrender Hread Hfields Hsend.
  destruct (handler_uploads sys outputLocation body composition fileBuffer
              Hid Hselect Hrender Hread Hfields)
    as (client & _ & ->).
  cbn [fst snd]. rewrite Hsend. split; reflexivity.
Qed.

Lemma upload_failure_is_500_witness :
  e_status
    (snd (render_handler
            {| selectComposition := fun _ _ => inr tt;
               renderMedia := fun (_ : unit) _ _ => inr tt;
               readFile := fun _ => inr Concrete.four_bytes;
               s3_send := fun _ _ => inl "AccessDenied" |}
            Concrete.tmp_out Concrete.job_without_bucket))
  = 500%Z.
Proof.
  destruct (upload_failure_is_500
              {| selectComposition := fun _ _ => inr tt;
                 renderMedia := fun (_ : unit) _ _ => inr tt;
                 readFile := fun _ => inr Concrete.four_bytes;
                 s3_send := fun _ _ => inl "AccessDenied" |}
              Concrete.tmp_out Concrete.job_without_bucket tt
              Concrete.four_bytes "AccessDenied")
    as [Hreply _].
  - reflexivity.
  - reflexivity.
  - reflexivity.
  - reflexivity.
  - reflexivity.
  - reflexivity.
  - rewrite Hreply. reflexivity.
Defined.

(** X13: the worker tests the [compositionId] for truthiness and for
    nothing else.  It answers 400 exactly when the value is falsy
    (absent, [null], [false], zero or the empty string); any truthy
    value, a string or not, is handed to [selectComposition] as it is,
    as the first call. *)
Theorem composition_checked_by_truthiness {Number : Type}
  {RT : Runtime Number} {Composition : Type}
  (sys : Renderer Number Composition) (outputLocation : string)
  (body : JSON Number) :
  (e_status (snd (render_handler sys outputLocation body)) = 400%Z
   <-> truthy (get_opt (Some body) "compositionId") = false)
  /\ (truthy (get_opt (Some body) "compositionId") = true ->
      exists rest,
        fst (render_handler sys outputLocation body)
        = SelectComposition (get_opt (Some body) "compositionId")
            (get_opt (Some body) "inputProps") :: rest).
Proof.
  unfold render_handler.
  destruct (truthy (get_opt (Some body) "compositionId")) eqn:Hid;
    cbn [negb].
  2: { split; [split; reflexivity | discriminate]. }
  cbn [Eff.bind Eff.await].
  destruct (selectComposition sys _ _) as [stack | composition].
  { split; [split; discriminate | intros _; eexists; reflexivity]. }
  cbn [Eff.bind Eff.await].
  destruct (renderMedia sys composition _ _) as [stack | []].
  { split; [split; discriminate | intros _; eexists; reflexivity]. }
  cbn [Eff.bind Eff.await].
  destruct (readFile sys outputLocation) as [stack | fileBuffer].
  { split; [split; discriminate | intros _; eexists; reflexivity]. }
  destruct (getS3Client _) as [client |].
  - destruct (truthy (get_opt (Some body) "renderId")
              && truthy (get_opt (Some body) "r2Config")).
    + cbn [Eff.bind Eff.await].
      destruct (s3_send sys client _) as [stack | []];
        (split; [split; discriminate | intros _; eexists; reflexivity]).
    + split; [split; discriminate | intros _; eexists; reflexivity].
  - split; [split; discriminate | intros _; eexists; reflexivity].
Qed.

Lemma composition_checked_by_truthiness_witness :
  exists rest,
    fst (render_handler Concrete.studio Concrete.tmp_out
           (JObj [("compositionId", JNum 7%Z)]))
    = SelectComposition (Some (JNum 7%Z)) None :: rest.
Proof.
  destruct (composition_checked_by_truthiness Concrete.studio
              Concrete.tmp_out (JObj [("compositionId", JNum 7%Z)]))
    as [_ Hfirst].
  apply Hfirst. reflexivity.
Defined.

(** X14: when the four upload fields are present and the upload succeeds,
    the worker answers 200 with a JSON manifest and no bytes: [key] is
    the key it uploaded under, [{renderId}.mp4], and [size] is the
    length of the file it uploaded. *)
Theorem upload_reply_matches_upload {Number : Type} {RT : Runtime Number}
  {Composition : Type} (sys : Renderer Number Composition)
  (outputLocation : string) (body : JSON Number) (composition : Composition)
  (fileBuffer : Stream) :
  truthy (get_opt (Some body) "compositionId") = true ->
  selectComposition sys (get_opt (Some body) "compositionId")
    (get_opt (Some body) "inputProps") = inr composition ->
  renderMedia sys composition (get_opt (Some body) "inputProps")
    outputLocation = inr tt ->
  readFile sys outputLocation = inr fileBuffer ->
  upload_fields_present body = true ->
  (forall client command, s3_send sys client command = inr tt) ->
  exists client command manifest,
    s3_sends (fst (render_handler sys outputLocation body))
    = [(client, command)]
    /\ Body command = fileBuffer
    /\ snd (render_handler sys outputLocation body)
       = {| e_status := 200; e_headers := []; e_body := SendJson manifest |}
    /\ get_opt (Some manifest) "key" = Some (JStr (Key command))
    /\ get_opt (Some manifest) "size"
       = Some (JNum (number_of_nat (length fileBuffer)))
    /\ Key command = template (get_opt (Some body) "renderId") ++ ".mp4".
Proof.
  intros Hid Hselect Hrender Hread Hfields Hsend.
  destruct (handler_uploads sys outputLocation body composition fileBuffer
              Hid Hselect Hrender Hread Hfields)
    as (client & _ & ->).
  cbn [fst snd]. rewrite Hsend.
  exists client. eexists. eexists.
  split; [reflexivity |]. split; [reflexivity |].
  split; [reflexivity |].
  destruct (get_opt (Some body) "renderId"); repeat split.
Qed.

Lemma upload_reply_matches_upload_witness :
  exists manifest,
    e_body (snd (render_handler Concrete.studio Concrete.tmp_out
                   Concrete.job_without_bucket))
    = SendJson manifest
    /\ get_opt (Some manifest) "size" = Some (JNum 4%Z).
Proof.
  destruct (upload_reply_matches_upload Concrete.studio Concrete.tmp_out
              Concrete.job_without_bucket tt Concrete.four_bytes)
    as (client & command & manifest & _ & _ & Hreply & _ & Hsize & _).
  - reflexivity.
  - reflexivity.
  - reflexivity.
  - reflexivity.
  - reflexivity.
  - reflexivity.
  - exists manifest. rewrite Hreply. split; [reflexivity | exact Hsize].
Defined.

(** * The gateway and the worker together *)

Section RoundTrip.
Context {Number : Type} {RT : Runtime Number} {Composition : Type}.
Variables (sys : Renderer Number Composition) (outputLocation : string).
Variables (request : Request Number) (env : Env Number) (renderId : string).
Variables (originalBody : JSON Number) (response : Response Number).

Let job : JSON Number := enhancedBody originalBody renderId env.

Hypothesis Hpath : pathname (req_url request) = "/render".
Hypothesis Hjson : req_json request = inr originalBody.
Hypothesis Hid :
  truthy (lookup "compositionId" (spread originalBody)) = true.

Lemma job_compositionId :
  get_opt (Some job) "compositionId"
  = lookup "compositionId" (spread originalBody).
Proof. apply enhancedBody_keeps; discriminate. Qed.

Lemma job_inputProps :
  get_opt (Some job) "inputProps" = lookup "inputProps" (spread originalBody).
Proof. apply enhancedBody_keeps; discriminate. Qed.

(** The worker finds the four upload fields in the job exactly when the
    gateway holds a non-empty account id, key id and secret, and the
    identifier is not empty. *)
Lemma job_upload_fields :
  upload_fields_present job
  = truthy (opt_str (CLOUDFLARE_ACCOUNT_ID env))
    && truthy (opt_str (R2_ACCESS_KEY_ID env))
    && truthy (opt_str (R2_SECRET_ACCESS_KEY env))
    && negb (String.eqb renderId EmptyString).
Proof.
  unfold upload_fields_present, job.
  rewrite enhancedBody_r2Config, enhancedBody_renderId.
  destruct (r2Config_fields env) as (-> & -> & -> & _). reflexivity.
Qed.

(** The worker's answer when a step of the rendering throws. *)
Lemma handler_fails (body : JSON Number) (stack : string) :
  truthy (get_opt (Some body) "compositionId") = true ->
  selectComposition sys (get_opt (Some body) "compositionId")
    (get_opt (Some body) "inputProps") = inl stack
  \/ (exists composition,
        selectComposition sys (get_opt (Some body) "compositionId")
          (get_opt (Some body) "inputProps") = inr composition
        /\ (renderMedia sys composition (get_opt (Some body) "inputProps")
              outputLocation = inl stack
            \/ (renderMedia sys composition
                  (get_opt (Some body) "inputProps") outputLocation = inr tt
                /\ readFile sys outputLocation = inl stack))) ->
  snd (render_handler sys outputLocation body)
  = res_json_reply 500
      [("message", Some (JStr "Error rendering video."));
       ("error", Some (JStr stack))].
Proof.
  intros Hbody Hfail. unfold render_handler. rewrite Hbody. cbn [negb].
  cbn [Eff.bind Eff.await].
  destruct Hfail as [-> | (composition & -> & Hfail)]; [reflexivity |].
  cbn [Eff.bind Eff.await].
  destruct Hfail as [-> | [-> Hread]]; [reflexivity |].
  cbn [Eff.bind Eff.await]. now rewrite Hread.
Qed.

(** The worker's answer when it cannot upload by itself. *)
Lemma handler_falls_back (body : JSON Number) composition fileBuffer :
  truthy (get_opt (Some body) "compositionId") = true ->
  selectComposition sys (get_opt (Some body) "compositionId")
    (get_opt (Some body) "inputProps") = inr composition ->
  renderMedia sys composition (get_opt (Some body) "inputProps")
    outputLocation = inr tt ->
  readFile sys outputLocation = inr fileBuffer ->
  upload_fields_present body = false ->
  s3_sends (fst (render_handler sys outputLocation body)) = []
  /\ snd (render_handler sys outputLocation body)
     = send_buffer fileBuffer (number_of_nat (length fileBuffer)).
Proof.
  intros Hbody Hselect Hrender Hread Hfields.
  unfold render_handler, upload_fields_present in *.
  rewrite Hbody. cbn [negb].
  cbn [Eff.bind Eff.await]. rewrite Hselect.
  cbn [Eff.bind Eff.await]. rewrite Hrender.
  cbn [Eff.bind Eff.await]. rewrite Hread.
  destruct (getS3Client (get_opt (Some body) "r2Config"))
    as [client |] eqn:Hclient; [| split; reflexivity].
  destruct (truthy (get_opt (Some body) "renderId")) eqn:Hrid.
  - rewrite andb_true_r in Hfields. apply getS3Client_null in Hfields.
    congruence.
  - split; reflexivity.
Qed.

End RoundTrip.

(** X15: the two programs together on the upload path.  When the gateway
    holds a non-empty account id, access key id and secret, and the
    worker renders the job and its upload succeeds, the worker uploads
    the rendered file once, to the gateway's bucket name under
    [{renderId}.mp4], and the caller gets 200 with that same key, the
    length of the rendered file as [size] and the public url of the key;
    the gateway itself writes nothing to the bucket. *)
Theorem self_upload_end_to_end {Number : Type} {RT : Runtime Number}
  {Composition : Type} (sys : Renderer Number Composition)
  (outputLocation : string) (request : Request Number) (env : Env Number)
  (renderId : string) (originalBody : JSON Number)
  (response : Response Number) (composition : Composition)
  (fileBuffer : Stream) :
  pathname (req_url request) = "/render" ->
  req_json request = inr originalBody ->
  truthy (lookup "compositionId" (spread originalBody)) = true ->
  renderId <> EmptyString ->
  truthy (opt_str (CLOUDFLARE_ACCOUNT_ID env))
  && truthy (opt_str (R2_ACCESS_KEY_ID env))
  && truthy (opt_str (R2_SECRET_ACCESS_KEY env)) = true ->
  selectComposition sys (lookup "compositionId" (spread originalBody))
    (lookup "inputProps" (spread originalBody)) = inr composition ->
  renderMedia sys composition (lookup "inputProps" (spread originalBody))
    outputLocation = inr tt ->
  readFile sys outputLocation = inr fileBuffer ->
  (forall client command, s3_send sys client command = inr tt) ->
  REMOTION_CONTAINER env
    (containerRequest request (enhancedBody originalBody renderId env))
  = inr response ->
  delivers
    (snd (render_handler sys outputLocation
            (enhancedBody originalBody renderId env)))
    response ->
  bucket_writes (fst (fetch request env renderId)) = []
  /\ (exists client,
        s3_sends
          (fst (render_handler sys outputLocation
                  (enhancedBody originalBody renderId env)))
        = [(client,
            {| Bucket := opt_str (R2_BUCKET_NAME env);
               Key := renderId ++ ".mp4";
               Body := fileBuffer;
               ContentType := "video/mp4" |})])
  /\ snd (fetch request env renderId)
     = Response_json
         [("renderId", Some (JStr renderId));
          ("bucketName", opt_str (R2_BUCKET_NAME env));
          ("key", Some (JStr (renderId ++ ".mp4")));
          ("size", Some (JNum (number_of_nat (length fileBuffer))));
          ("url", Some (JStr (public_base ++ (renderId ++ ".mp4"))))]
         200.
Proof.
  intros Hpath Hjson Hid Hrid Hcreds Hselect Hrender Hread Hsend Hfetch
    Hdelivers.
  set (body := enhancedBody originalBody renderId env) in *.
  assert (Hcid : get_opt (Some body) "compositionId"
                 = lookup "compositionId" (spread originalBody))
    by apply job_compositionId.
  assert (Hprops : get_opt (Some body) "inputProps"
                   = lookup "inputProps" (spread originalBody))
    by apply job_inputProps.
  assert (Hfields : upload_fields_present body = true).
  { unfold body. rewrite job_upload_fields, Hcreds.
    apply String.eqb_neq in Hrid. now rewrite Hrid. }
  rewrite <- Hcid in Hid, Hselect. rewrite <- Hprops in Hselect, Hrender.
  destruct (handler_uploads sys outputLocation body composition fileBuffer
              Hid Hselect Hrender Hread Hfields)
    as (client & _ & Hhandler).
  rewrite Hhandler in Hdelivers |- *. cbn [fst snd] in Hdelivers |- *.
  rewrite Hsend in Hdelivers.
  assert (Hjob_id : get_opt (Some body) "renderId" = Some (JStr renderId))
    by apply enhancedBody_renderId.
  assert (Hbucket : get_opt (get_opt (Some body) "r2Config") "bucketName"
                    = opt_str (R2_BUCKET_NAME env)).
  { unfold body. rewrite enhancedBody_r2Config.
    now destruct (r2Config_fields env) as (_ & _ & _ & ->). }
  rewrite Hjob_id in Hdelivers |- *. rewrite Hbucket.
  destruct Hdelivers as (Hstatus & _ & Hmanifest & Htype).
  cbn in Hstatus, Hmanifest.
  assert (Hkind : declares_json response = true).
  { unfold declares_json, contentType. now rewrite Htype. }
  rewrite (fetch_manifest request env renderId originalBody response
             Hpath Hjson Hfetch Hstatus Hkind).
  cbn [fst snd]. rewrite Hmanifest.
  split; [reflexivity |]. split; [exists client; reflexivity |]. reflexivity.
Qed.

Lemma self_upload_end_to_end_witness :
  bucket_writes
    (fst (fetch (Concrete.post Concrete.render_url Concrete.hello_world)
            (Concrete.env_with Concrete.worker_container
               (Some "AKIDEXAMPLE") (Some "s3cr3t"))
            Concrete.uuid))
  = []
  /\ answer_prop
       (snd (fetch (Concrete.post Concrete.render_url Concrete.hello_world)
               (Concrete.env_with Concrete.worker_container
                  (Some "AKIDEXAMPLE") (Some "s3cr3t"))
               Concrete.uuid))
       "size"
     = Some (JNum 4%Z).
Proof.
  destruct (self_upload_end_to_end Concrete.studio Concrete.tmp_out
              (Concrete.post Concrete.render_url Concrete.hello_world)
              (Concrete.env_with Concrete.worker_container
                 (Some "AKIDEXAMPLE") (Some "s3cr3t"))
              Concrete.uuid Concrete.hello_world
              (Concrete.carry
                 (snd (render_handler Concrete.studio Concrete.tmp_out
                         (enhancedBody Concrete.hello_world Concrete.uuid
                            (Concrete.env_with Concrete.worker_container
                               (Some "AKIDEXAMPLE") (Some "s3cr3t"))))))
              tt Concrete.four_bytes)
    as (Hwrites & _ & Hanswer).
  - reflexivity.
  - reflexivity.
  - reflexivity.
  - discriminate.
  - reflexivity.
  - reflexivity.
  - reflexivity.
  - reflexivity.
  - reflexivity.
  - reflexivity.
  - repeat split; reflexivity.
  - split; [exact Hwrites |]. rewrite Hanswer. reflexivity.
Defined.

(** X16: the two programs together on the fallback path.  When the
    gateway lacks the account id, the access key id or the secret (or
    holds an empty one), the worker uploads nothing and sends the
    rendered file back; the gateway stores exactly those bytes, once,
    under [{renderId}.mp4] as [video/mp4], and when the bucket accepts
    them the caller gets 200 with the size the bucket reports. *)
Theorem fallback_end_to_end {Number : Type} {RT : Runtime Number}
  {Composition : Type} (sys : Renderer Number Composition)
  (outputLocation : string) (request : Request Number) (env : Env Number)
  (renderId : string) (originalBody : JSON Number)
  (response : Response Number) (composition : Composition)
  (fileBuffer : Stream) (r2Object : R2Object Number) :
  pathname (req_url request) = "/render" ->
  req_json request = inr originalBody ->
  truthy (lookup "compositionId" (spread originalBody)) = true ->
  truthy (opt_str (CLOUDFLARE_ACCOUNT_ID env))
  && truthy (opt_str (R2_ACCESS_KEY_ID env))
  && truthy (opt_str (R2_SECRET_ACCESS_KEY env)) = false ->
  selectComposition sys (lookup "compositionId" (spread originalBody))
    (lookup "inputProps" (spread originalBody)) = inr composition ->
  renderMedia sys composition (lookup "inputProps" (spread originalBody))
    outputLocation = inr tt ->
  readFile sys outputLocation = inr fileBuffer ->
  REMOTION_CONTAINER env
    (containerRequest request (enhancedBody originalBody renderId env))
  = inr response ->
  delivers
    (snd (render_handler sys outputLocation
            (enhancedBody originalBody renderId env)))
    response ->
  R2_BUCKET env (renderId ++ ".mp4") fileBuffer "video/mp4" = inr r2Object ->
  s3_sends
    (fst (render_handler sys outputLocation
            (enhancedBody originalBody renderId env)))
  = []
  /\ bucket_writes (fst (fetch request env renderId))
     = [(renderId ++ ".mp4", fileBuffer, "video/mp4")]
  /\ g_status (snd (fetch request env renderId)) = 200%Z
  /\ answer_prop (snd (fetch request env renderId)) "key"
     = Some (JStr (renderId ++ ".mp4"))
  /\ answer_prop (snd (fetch request env renderId)) "size"
     = Some (JNum (r2_size r2Object)).
Proof.
  intros Hpath Hjson Hid Hcreds Hselect Hrender Hread Hfetch Hdelivers Hput.
  set (body := enhancedBody originalBody renderId env) in *.
  assert (Hcid : get_opt (Some body) "compositionId"
                 = lookup "compositionId" (spread originalBody))
    by apply job_compositionId.
  assert (Hprops : get_opt (Some body) "inputProps"
                   = lookup "inputProps" (spread originalBody))
    by apply job_inputProps.
  assert (Hfields : upload_fields_present body = false).
  { unfold body. now rewrite job_upload_fields, Hcreds. }
  rewrite <- Hcid in Hid, Hselect. rewrite <- Hprops in Hselect, Hrender.
  destruct (handler_falls_back sys outputLocation body composition
              fileBuffer Hid Hselect Hrender Hread Hfields)
    as [Hnone Hreply].
  split; [exact Hnone |].
  rewrite Hreply in Hdelivers.
  destruct Hdelivers as (Hstatus & Hbody & Hheaders).
  cbn in Hstatus, Hbody, Hheaders.
  assert (Hkind : declares_json response = false).
  { unfold declares_json, contentType.
    rewrite (Hheaders "Content-Type" "video/mp4") by (left; reflexivity).
    reflexivity. }
  rewrite (fetch_stream request env renderId originalBody response
             Hpath Hjson Hfetch fileBuffer Hstatus Hkind Hbody).
  cbn [fst snd]. rewrite Hput.
  split; [reflexivity |]. split; [reflexivity |].
  unfold answer_prop, Response_json. cbn [g_payload].
  destruct (R2_BUCKET_NAME env); split; reflexivity.
Qed.

Lemma fallback_end_to_end_witness :
  bucket_writes
    (fst (fetch (Concrete.post Concrete.render_url Concrete.hello_world)
            (Concrete.env_with Concrete.worker_container None None)
            Concrete.uuid))
  = [(Concrete.uuid ++ ".mp4", Concrete.four_bytes, "video/mp4")].
Proof.
  destruct (fallback_end_to_end Concrete.studio Concrete.tmp_out
              (Concrete.post Concrete.render_url Concrete.hello_world)
              (Concrete.env_with Concrete.worker_container None None)
              Concrete.uuid Concrete.hello_world
              (Concrete.carry
                 (snd (render_handler Concrete.studio Concrete.tmp_out
                         (enhancedBody Concrete.hello_world Concrete.uuid
                            (Concrete.env_with Concrete.worker_container
                               None None)))))
              tt Concrete.four_bytes
              {| r2_key := Concrete.uuid ++ ".mp4"; r2_size := 4%Z |})
    as (_ & Hwrites & _).
  - reflexivity.
  - reflexivity.
  - reflexivity.
  - reflexivity.
  - reflexivity.
  - reflexivity.
  - reflexivity.
  - reflexivity.
  - split; [reflexivity |]. split; [reflexivity |].
    intros k v [[= <- <-] | [[= <- <-] | []]]; reflexivity.
  - reflexivity.
  - exact Hwrites.
Defined.

(** X17: the two programs together when the renderer fails.  The
    worker's 500 and its JSON text, the message [Error rendering video.]
    with the error's stack, reach the caller as they are: status 500 and
    that text as the body.  The gateway adds nothing to it and writes
    nothing to the bucket. *)
Theorem renderer_failure_end_to_end {Number : Type} {RT : Runtime Number}
  {Composition : Type} (sys : Renderer Number Composition)
  (outputLocation : string) (request : Request Number) (env : Env Number)
  (renderId : string) (originalBody : JSON Number)
  (response : Response Number) (stack : string) :
  pathname (req_url request) = "/render" ->
  req_json request = inr originalBody ->
  truthy (lookup "compositionId" (spread originalBody)) = true ->
  selectComposition sys (lookup "compositionId" (spread originalBody))
    (lookup "inputProps" (spread originalBody)) = inl stack
  \/ (exists composition,
        selectComposition sys (lookup "compositionId" (spread originalBody))
          (lookup "inputProps" (spread originalBody)) = inr composition
        /\ (renderMedia sys composition
              (lookup "inputProps" (spread originalBody)) outputLocation
            = inl stack
            \/ (renderMedia sys composition
                  (lookup "inputProps" (spread originalBody)) outputLocation
                = inr tt
                /\ readFile sys outputLocation = inl stack))) ->
  REMOTION_CONTAINER env
    (containerRequest request (enhancedBody originalBody renderId env))
  = inr response ->
  delivers
    (snd (render_handler sys outputLocation
            (enhancedBody originalBody renderId env)))
    response ->
  bucket_writes (fst (fetch request env renderId)) = []
  /\ snd (fetch request env renderId)
     = {| g_status := 500;
          g_content_type := "application/json";
          g_payload :=
            TextPayload
              (JSON_stringify
                 (JObj [("message", JStr "Error rendering video.");
                        ("error", JStr stack)])) |}.
Proof.
  intros Hpath Hjson Hid Hfail Hfetch Hdelivers.
  set (body := enhancedBody originalBody renderId env) in *.
  assert (Hcid : get_opt (Some body) "compositionId"
                 = lookup "compositionId" (spread originalBody))
    by apply job_compositionId.
  assert (Hprops : get_opt (Some body) "inputProps"
                   = lookup "inputProps" (spread originalBody))
    by apply job_inputProps.
  rewrite <- Hcid in Hid, Hfail. rewrite <- Hprops in Hfail.
  rewrite (handler_fails sys outputLocation body stack Hid Hfail)
    in Hdelivers.
  destruct Hdelivers as (Hstatus & Htext & _).
  cbn in Hstatus, Htext.
  rewrite (fetch_fault request env renderId originalBody response
             Hpath Hjson Hfetch)
    by (rewrite Hstatus; discriminate).
  cbn [fst snd]. rewrite Htext, Hstatus. split; reflexivity.
Qed.

Lemma renderer_failure_end_to_end_witness :
  g_status
    (snd (fetch (Concrete.post Concrete.render_url Concrete.hello_world)
            (Concrete.env_with
               (fun creq =>
                  inr (Concrete.carry
                         (snd (render_handler
                                 {| selectComposition :=
                                      fun _ _ => inl "Error: no such id";
                                    renderMedia :=
                                      fun (_ : unit) _ _ => inr tt;
                                    readFile :=
                                      fun _ => inr Concrete.four_bytes;
                                    s3_send := fun _ _ => inr tt |}
                                 Concrete.tmp_out (c_body creq)))))
               None None)
            Concrete.uuid))
  = 500%Z.
Proof.
  destruct (renderer_failure_end_to_end
              {| selectComposition := fun _ _ => inl "Error: no such id";
                 renderMedia := fun (_ : unit) _ _ => inr tt;
                 readFile := fun _ => inr Concrete.four_bytes;
                 s3_send := fun _ _ => inr tt |}
              Concrete.tmp_out
              (Concrete.post Concrete.render_url Concrete.hello_world)
              (Concrete.env_with
                 (fun creq =>
                    inr (Concrete.carry
                           (snd (render_handler
                                   {| selectComposition :=
                                        fun _ _ => inl "Error: no such id";
                                      renderMedia :=
                                        fun (_ : unit) _ _ => inr tt;
                                      readFile :=
                                        fun _ => inr Concrete.four_bytes;
                                      s3_send := fun _ _ => inr tt |}
                                   Concrete.tmp_out (c_body creq)))))
                 None None)
              Concrete.uuid Concrete.hello_world
              (Concrete.carry
                 (snd (render_handler
                         {| selectComposition :=
                              fun _ _ => inl "Error: no such id";
                            renderMedia := fun (_ : unit) _ _ => inr tt;
                            readFile := fun _ => inr Concrete.four_bytes;
                            s3_send := fun _ _ => inr tt |}
                         Concrete.tmp_out
                         (enhancedBody Concrete.hello_world Concrete.uuid
                            (Concrete.env_with (fun _ => inl "unused")
                               None None)))))
              "Error: no such id")
    as [_ Hanswer].
  - reflexivity.
  - reflexivity.
  - reflexivity.
  - left. reflexivity.
  - reflexivity.
  - repeat split; reflexivity.
  - rewrite Hanswer. reflexivity.
Defined.

(** * The map composition's helpers *)

Section MediaType.

Lemma append_associative (a b c : string) : a ++ b ++ c = (a ++ b) ++ c.
Proof. induction a as [| x a IH]; cbn; [reflexivity | now rewrite IH]. Qed.

Lemma toLowerCase_append (a b : string) :
  toLowerCase (a ++ b) = toLowerCase a ++ toLowerCase b.
Proof. induction a as [| c a IH]; cbn; [reflexivity | now rewrite IH]. Qed.

(** Lowering a character neither makes nor removes a [?] or a [#]. *)
Lemma opens_query_lower (c : ascii) :
  opens_query (lower_ascii c) = opens_query c.
Proof. destruct c as [[] [] [] [] [] [] [] []]; reflexivity. Qed.

Lemma before_query_lower (s : string) :
  before_query (toLowerCase s) = toLowerCase (before_query s).
Proof.
  induction s as [| c s IH]; cbn; [reflexivity |].
  rewrite opens_query_lower.
  destruct (opens_query c); cbn; [reflexivity | now rewrite IH].
Qed.

(** When [p] holds no [?] and no [#], and [q] is empty or starts with
    one, the prefix before the query of [p ++ q] is [p]. *)
Lemma before_query_append (p q : string) :
  before_query p = p ->
  before_query q = EmptyString ->
  before_query (p ++ q) = p.
Proof.
  intros Hp Hq. induction p as [| c p IH]; cbn in *; [exact Hq |].
  destruct (opens_query c); [discriminate Hp |].
  injection Hp as Hp. now rewrite IH.
Qed.

Lemma before_query_whole_lower (s : string) :
  before_query s = s -> before_query (toLowerCase s) = toLowerCase s.
Proof. intros H. now rewrite before_query_lower, H. Qed.

Lemma endsWith_refl (s : string) : endsWith s s = true.
Proof. destruct s; cbn [endsWith]; now rewrite String.eqb_refl. Qed.

Lemma endsWith_append (p ext : string) : endsWith (p ++ ext) ext = true.
Proof.
  induction p as [| c p IH]; cbn [append].
  - apply endsWith_refl.
  - cbn [endsWith]. rewrite IH. apply orb_true_r.
Qed.

(** Two endings of one string: one of them ends with the other. *)
Lemma endsWith_two (p a b : string) :
  endsWith (p ++ a) b = true ->
  endsWith a b = true \/ endsWith b a = true.
Proof.
  induction p as [| c p IH]; cbn [append]; [now left |].
  cbn [endsWith]. intros H. apply orb_prop in H as [H | H].
  - apply String.eqb_eq in H. right.
    rewrite <- H. apply (endsWith_append (String c p) a).
  - now apply IH.
Qed.

Lemma pathMatch_nonempty (s : string) :
  before_query s = s -> s <> EmptyString -> pathMatch s = Some s.
Proof.
  intros H Hne. unfold pathMatch. rewrite H.
  destruct s; [contradiction | reflexivity].
Qed.

(** The path [getMediaType] examines when the URL is [p ++ q], with [p]
    not empty and free of [?] and [#], and [q] empty or a query or
    fragment: the lowered [p]. *)
Lemma examined_path (p q : string) :
  before_query p = p ->
  p <> EmptyString ->
  before_query q = EmptyString ->
  match pathMatch (toLowerCase (p ++ q)) with
  | Some path => path
  | None => toLowerCase (p ++ q)
  end = toLowerCase p.
Proof.
  intros Hp Hne Hq. unfold pathMatch.
  rewrite toLowerCase_append, before_query_append.
  - destruct p; [contradiction | reflexivity].
  - now apply before_query_whole_lower.
  - now rewrite before_query_lower, Hq.
Qed.

Lemma append_nonempty (p ext : string) :
  ext <> EmptyString -> p ++ ext <> EmptyString.
Proof. destruct p; [now cbn | discriminate]. Qed.

Lemma extension_is_plain (ext : string) :
  In (toLowerCase ext) (VIDEO_EXTENSIONS ++ IMAGE_EXTENSIONS)%list ->
  before_query ext = ext /\ ext <> EmptyString.
Proof.
  intros Hin.
  assert (Hlow : before_query (toLowerCase ext) = toLowerCase ext
                 /\ toLowerCase ext <> EmptyString).
  { cbn in Hin.
    repeat (destruct Hin as [<- | Hin]; [split; [reflexivity | discriminate] |]).
    contradiction. }
  destruct Hlow as [Hlow Hne]. split.
  - clear Hin Hne. induction ext as [| c ext IH]; [reflexivity |].
    cbn in *. rewrite opens_query_lower in Hlow.
    destruct (opens_query c); [discriminate Hlow |].
    injection Hlow as Hlow. now rewrite IH.
  - intros ->. now apply Hne.
Qed.

Lemma before_query_append_plain (p ext : string) :
  before_query p = p -> before_query ext = ext ->
  before_query (p ++ ext) = p ++ ext.
Proof.
  intros Hp Hext. induction p as [| c p IH]; cbn in *; [exact Hext |].
  destruct (opens_query c); [discriminate Hp |].
  injection Hp as Hp. now rewrite IH.
Qed.

End MediaType.

(** X18: a URL whose path ends with a video extension, written in any
    mix of upper and lower case, is a video, whatever query string or
    fragment follows the path. *)
Theorem video_extension_detected (p ext q : string) :
  before_query p = p ->
  In (toLowerCase ext) VIDEO_EXTENSIONS ->
  before_query q = EmptyString ->
  getMediaType (p ++ ext ++ q) = Some video.
Proof.
  intros Hp Hext Hq.
  destruct (extension_is_plain ext) as [Hplain Hne];
    [apply in_or_app; now left |].
  unfold getMediaType. rewrite append_associative.
  rewrite (examined_path (p ++ ext) q)
    by (try apply before_query_append_plain; try apply append_nonempty;
        assumption).
  rewrite toLowerCase_append.
  replace (existsb (fun e => endsWith (toLowerCase p ++ toLowerCase ext) e)
             VIDEO_EXTENSIONS) with true; [reflexivity |].
  symmetry. apply existsb_exists. exists (toLowerCase ext).
  split; [exact Hext | apply endsWith_append].
Qed.

Lemma video_extension_detected_witness :
  getMediaType "https://cdn.example.com/clips/Intro.MP4?token=abc#t=3"
  = Some video.
Proof.
  apply (video_extension_detected "https://cdn.example.com/clips/Intro"
           ".MP4" "?token=abc#t=3").
  - reflexivity.
  - cbn. tauto.
  - reflexivity.
Defined.

(** X19: a URL whose path ends with an image extension, in any mix of
    case and whatever query or fragment follows, is an image: no path
    ends with an image extension and a video extension at once. *)
Theorem image_extension_detected (p ext q : string) :
  before_query p = p ->
  In (toLowerCase ext) IMAGE_EXTENSIONS ->
  before_query q = EmptyString ->
  getMediaType (p ++ ext ++ q) = Some image.
Proof.
  intros Hp Hext Hq.
  destruct (extension_is_plain ext) as [Hplain Hne];
    [apply in_or_app; now right |].
  unfold getMediaType. rewrite append_associative.
  rewrite (examined_path (p ++ ext) q)
    by (try apply before_query_append_plain; try apply append_nonempty;
        assumption).
  rewrite toLowerCase_append.
  replace (existsb (fun e => endsWith (toLowerCase p ++ toLowerCase ext) e)
             VIDEO_EXTENSIONS) with false.
  - replace (existsb (fun e => endsWith (toLowerCase p ++ toLowerCase ext) e)
               IMAGE_EXTENSIONS) with true; [reflexivity |].
    symmetry. apply existsb_exists. exists (toLowerCase ext).
    split; [exact Hext | apply endsWith_append].
  - symmetry. apply not_true_is_false. intros Hvideo.
    apply existsb_exists in Hvideo as (v & Hv & Hends).
    apply endsWith_two in Hends.
    cbn in Hext, Hv.
    repeat (destruct Hext as [E | Hext];
            [rewrite <- E in Hends;
             repeat (destruct Hv as [<- | Hv];
                     [destruct Hends as [H | H]; vm_compute in H; discriminate H |]);
             contradiction |]).
    contradiction.
Qed.

Lemma image_extension_detected_witness :
  getMediaType "https://api.example.com/media/Photo.JPEG?width=200"
  = Some image.
Proof.
  apply (image_extension_detected "https://api.example.com/media/Photo"
           ".JPEG" "?width=200").
  - reflexivity.
  - cbn. tauto.
  - reflexivity.
Defined.

(** X20: whatever follows the first [?] or [#] plays no part: a URL with
    a non-empty path has the media type of that path alone, so an
    extension that only stands in the query string is not seen. *)
Theorem query_is_ignored (p q : string) :
  before_query p = p ->
  p <> EmptyString ->
  before_query q = EmptyString ->
  getMediaType (p ++ q) = getMediaType p.
Proof.
  intros Hp Hne Hq. unfold getMediaType.
  rewrite (examined_path p q) by assumption.
  rewrite (pathMatch_nonempty (toLowerCase p)).
  - reflexivity.
  - now apply before_query_whole_lower.
  - destruct p; [contradiction | discriminate].
Qed.

Lemma query_is_ignored_witness :
  getMediaType "https://example.com/download?file=movie.mp4" = None.
Proof.
  refine (query_is_ignored "https://example.com/download" "?file=movie.mp4"
            _ _ _).
  - reflexivity.
  - discriminate.
  - reflexivity.
Defined.

(** X21: a URL that begins with [?] or [#] has no path for the pattern to
    match, and is then examined whole: its extension is looked for at the
    very end, query or fragment included. *)
Theorem leading_query_is_examined_whole (c : ascii) (rest ext : string) :
  opens_query c = true ->
  In (toLowerCase ext) VIDEO_EXTENSIONS ->
  getMediaType (String c (rest ++ ext)) = Some video.
Proof.
  intros Hc Hext. unfold getMediaType, pathMatch.
  cbn [toLowerCase before_query]. rewrite opens_query_lower, Hc.
  rewrite toLowerCase_append.
  replace (existsb
             (fun e =>
                endsWith
                  (String (lower_ascii c)
                     (toLowerCase rest ++ toLowerCase ext)) e)
             VIDEO_EXTENSIONS) with true; [reflexivity |].
  symmetry. apply existsb_exists. exists (toLowerCase ext).
  split; [exact Hext |].
  apply (endsWith_append (String (lower_ascii c) (toLowerCase rest))).
Qed.

Lemma leading_query_is_examined_whole_witness :
  getMediaType "?file=movie.mp4" = Some video.
Proof.
  apply (leading_query_is_examined_whole "?" "file=movie" ".mp4").
  - reflexivity.
  - cbn. tauto.
Defined.

(** X22: [getCategoryColor] always answers with a colour of the
    palette, never with [undefined]: a type without an entry in the table
    (zero, six, a fraction) gets the colour of type 1. *)
Theorem category_color_in_palette {Number : Type} {RT : Runtime Number}
  (type : Number) :
  exists colour,
    getCategoryColor type = Some colour
    /\ In colour (map snd CATEGORY_COLORS)
    /\ (table_get (number_to_string type) CATEGORY_COLORS = None ->
        colour = "#EF4444").
Proof.
  unfold getCategoryColor, CATEGORY_COLORS. cbn [table_get map snd].
  repeat match goal with
         | |- context [String.eqb ?k (number_to_string type)] =>
             destruct (String.eqb k (number_to_string type))
         end;
    cbn [nullish String.eqb Ascii.eqb Bool.eqb];
    eexists; (split; [reflexivity |]); (split; [cbn; tauto |]);
    first [discriminate | reflexivity].
Qed.

(** X23: the badge text is always the word [Type] followed by the type
    as text: the entries of [CATEGORY_LABELS] and the fallback agree. *)
Theorem category_label_is_type_n {Number : Type} {RT : Runtime Number}
  (type : Number) :
  categoryLabel type = "Type " ++ number_to_string type.
Proof.
  unfold categoryLabel, CATEGORY_LABELS. cbn [table_get].
  repeat match goal with
         | |- context [String.eqb ?k (number_to_string type)] =>
             let E := fresh "E" in
             destruct (String.eqb k (number_to_string type)) eqn:E;
             [apply String.eqb_eq in E; now rewrite <- E |]
         end.
  reflexivity.
Qed.

(** * The duration of the map composition *)

(** No media URL, no media type. *)
Lemma video_url_is_not_empty (mediaUrl : string) :
  getMediaType mediaUrl = Some video ->
  String.eqb mediaUrl EmptyString = false.
Proof.
  intros H. destruct (String.eqb mediaUrl EmptyString) eqn:E; [| reflexivity].
  apply String.eqb_eq in E. subst mediaUrl. discriminate H.
Qed.

Lemma duration_of_video {F : Type} {MO : MathOps F} (mediaUrl : string)
  (getVideoMetadata : string -> Exc F) (seconds : F) :
  getMediaType mediaUrl = Some video ->
  getVideoMetadata mediaUrl = inr seconds ->
  snd (calculateMapSceneMetadata mediaUrl getVideoMetadata)
  = Math_ceil
      (times
         (Math_max MIN_DURATION_SECONDS
            (Math_min seconds MAX_DURATION_SECONDS))
         VIDEO_FPS).
Proof.
  intros Hvideo Hmeta. unfold calculateMapSceneMetadata.
  rewrite (video_url_is_not_empty mediaUrl Hvideo), Hvideo. cbn [negb].
  now rewrite Hmeta.
Qed.

(** X24: the metadata of the media is requested exactly when the media
    URL is that of a video, once and for that URL.  For an image, an
    unknown type or no media, the default duration is returned without
    any request; when the request fails, the default duration is
    returned as well; when it succeeds, the duration in seconds is
    clamped between the two bounds, multiplied by the frame rate and
    rounded up. *)
Theorem metadata_requested_for_video_only {F : Type} {MO : MathOps F}
  (mediaUrl : string) (getVideoMetadata : string -> Exc F) :
  (getMediaType mediaUrl <> Some video ->
   calculateMapSceneMetadata mediaUrl getVideoMetadata
   = ([], DEFAULT_DURATION_FRAMES))
  /\ (getMediaType mediaUrl = Some video ->
      fst (calculateMapSceneMetadata mediaUrl getVideoMetadata)
      = [GetVideoMetadata mediaUrl]
      /\ (forall error,
            getVideoMetadata mediaUrl = inl error ->
            snd (calculateMapSceneMetadata mediaUrl getVideoMetadata)
            = DEFAULT_DURATION_FRAMES)
      /\ (forall seconds,
            getVideoMetadata mediaUrl = inr seconds ->
            snd (calculateMapSceneMetadata mediaUrl getVideoMetadata)
            = Math_ceil
                (times
                   (Math_max MIN_DURATION_SECONDS
                      (Math_min seconds MAX_DURATION_SECONDS))
                   VIDEO_FPS))).
Proof.
  unfold calculateMapSceneMetadata.
  destruct (String.eqb mediaUrl EmptyString) eqn:Hempty; cbn [negb].
  - apply String.eqb_eq in Hempty. subst mediaUrl.
    split; [reflexivity | discriminate].
  - destruct (getMediaType mediaUrl) as [[] |].
    + split; [intros H; now contradiction H |]. intros _.
      destruct (getVideoMetadata mediaUrl) as [e | seconds]; cbn.
      * split; [reflexivity |]. split; [reflexivity | discriminate].
      * split; [reflexivity |]. split; [discriminate |].
        now intros seconds' [= <-].
    + split; [reflexivity | discriminate].
    + split; [reflexivity | discriminate].
Qed.

Lemma metadata_requested_for_video_only_witness :
  calculateMapSceneMetadata "https://cdn.example.com/a.png"
    (fun _ => inr 45%Z)
  = ([], 900%Z)
  /\ fst (calculateMapSceneMetadata "https://cdn.example.com/a.mp4"
            (fun _ => inr 45%Z))
     = [GetVideoMetadata "https://cdn.example.com/a.mp4"].
Proof.
  destruct (metadata_requested_for_video_only
              "https://cdn.example.com/a.png" (fun _ => inr 45%Z))
    as [Himage _].
  destruct (metadata_requested_for_video_only
              "https://cdn.example.com/a.mp4" (fun _ => inr 45%Z))
    as [_ Hvideo].
  split.
  - rewrite Himage by discriminate. reflexivity.
  - apply Hvideo. reflexivity.
Defined.

(** X25: for a video whose duration is a whole number of seconds, the
    composition lasts 30 frames per second of video, but never less than
    900 frames (30 s) and never more than 1800 frames (60 s). *)
Theorem whole_seconds_are_clamped (mediaUrl : string)
  (getVideoMetadata : string -> Exc Z) (seconds : Z) :
  getMediaType mediaUrl = Some video ->
  getVideoMetadata mediaUrl = inr seconds ->
  (900 <= snd (calculateMapSceneMetadata mediaUrl getVideoMetadata)
   <= 1800)%Z
  /\ ((30 <= seconds <= 60)%Z ->
      snd (calculateMapSceneMetadata mediaUrl getVideoMetadata)
      = (seconds * 30)%Z)
  /\ ((seconds <= 30)%Z ->
      snd (calculateMapSceneMetadata mediaUrl getVideoMetadata) = 900%Z)
  /\ ((60 <= seconds)%Z ->
      snd (calculateMapSceneMetadata mediaUrl getVideoMetadata) = 1800%Z).
Proof.
  intros Hvideo Hmeta.
  rewrite (duration_of_video mediaUrl getVideoMetadata seconds Hvideo Hmeta).
  cbn. lia.
Qed.

Lemma whole_seconds_are_clamped_witness :
  snd (calculateMapSceneMetadata "https://cdn.example.com/a.mp4"
         (fun _ => inr 45%Z))
  = 1350%Z.
Proof.
  destruct (whole_seconds_are_clamped "https://cdn.example.com/a.mp4"
              (fun _ => inr 45%Z) 45%Z)
    as (_ & Hexact & _).
  - reflexivity.
  - reflexivity.
  - rewrite Hexact by lia. reflexivity.
Defined.
